(** * The Datagen Python SDK client: a shallow embedding and its properties

    The development follows [datagen_sdk/client.py]: the exception classes
    of the SDK, the constructor of [DatagenClient] and its one method
    [execute_tool], with the retry loop, the backoff sleeps and the two
    nested response envelopes.

    Python values are an inductive type, a [dict] is a [gmap] with string
    keys, the instance attributes of the client live in the state that
    [execute_tool] runs in, and the HTTP library is the environment: a
    function that answers the n-th request, by a response or by raising.
    Numbers of seconds are rationals; where the run-time system can
    refuse a product or a sleep, it is a parameter too. *)

From Stdlib Require Import ZArith QArith String Ascii List Lia.
From Stdlib Require Import Floats.SpecFloat DecimalString.
From stdpp Require Import base strings list gmap.

Set Warnings "-register-all".

Open Scope Z_scope.
Open Scope string_scope.

(** ** Python values *)

(** The values a JSON document decodes to ([None], [bool], [int], [float],
    [str], [list], [dict] with string keys). *)
Inductive value : Type :=
| VNone
| VBool (b : bool)
| VInt (z : Z)
| VFloat (f : spec_float)
| VStr (s : string)
| VList (l : list value)
| VDict (d : gmap string value).

(** [type(v).__name__], as it appears in the text of an [AttributeError]. *)
Definition type_name (v : value) : string :=
  match v with
  | VNone => "NoneType"
  | VBool _ => "bool"
  | VInt _ => "int"
  | VFloat _ => "float"
  | VStr _ => "str"
  | VList _ => "list"
  | VDict _ => "dict"
  end.

(** Truth value testing: what [if x], [not x] and [x or y] look at. *)
Class Truthy (A : Type) := truthy : A -> bool.

#[global] Instance string_truthy : Truthy string :=
  fun s => negb (Nat.eqb (String.length s) 0).

#[global] Instance option_truthy {A} `{Truthy A} : Truthy (option A) :=
  fun o => match o with Some a => truthy a | None => false end.

#[global] Instance value_truthy : Truthy value :=
  fun v =>
    match v with
    | VNone => false
    | VBool b => b
    | VInt z => negb (z =? 0)%Z
    | VFloat (S754_zero _) => false
    | VFloat _ => true
    | VStr s => truthy s
    | VList l => negb (Nat.eqb (length l) 0)
    | VDict d => negb (Nat.eqb (size d) 0)
    end.

(** [a or b] *)
Definition py_or {A} `{Truthy A} (a b : A) : A :=
  if truthy a then a else b.

(** [str(n)] for an [int]. *)
Definition str_of_int (n : Z) : string :=
  NilZero.string_of_int (Z.to_int n).

(** [range(n)] *)
Definition range (n : Z) : list Z :=
  map Z.of_nat (seq 0 (Z.to_nat n)).

(** [c in chars] *)
Fixpoint char_in (c : ascii) (chars : string) : bool :=
  match chars with
  | EmptyString => false
  | String c' rest => Ascii.eqb c c' || char_in c rest
  end.

(** [s.rstrip(chars)]: the trailing characters of [s] that occur in
    [chars] are removed. *)
Fixpoint rstrip (chars s : string) : string :=
  match s with
  | EmptyString => EmptyString
  | String c rest =>
      match rstrip chars rest with
      | EmptyString => if char_in c chars then EmptyString else String c EmptyString
      | kept => String c kept
      end
  end.

(** ** Exceptions *)

(** The exception classes that occur: the four of the SDK, the built-in
    ones the code raises or meets, and those of the HTTP library
    ([RequestsJSONDecodeError] is [requests.exceptions.JSONDecodeError],
    [JSONDecodeError] is [json.JSONDecodeError]). *)
Inductive py_class : Type :=
| Exception
| ValueError
| AttributeError
| ArithmeticError
| OverflowError
| OSError
| JSONDecodeError
| RequestException
| ConnectionError
| Timeout
| InvalidJSONError
| RequestsJSONDecodeError
| DatagenError
| DatagenAuthError
| DatagenToolError
| DatagenHttpError.

#[global] Instance py_class_eq_dec : EqDecision py_class.
Proof. solve_decision. Defined.

(** The base classes named in each [class] statement. *)
Definition bases (c : py_class) : list py_class :=
  match c with
  | Exception => []
  | ValueError => [Exception]
  | AttributeError => [Exception]
  | ArithmeticError => [Exception]
  | OverflowError => [ArithmeticError]
  | OSError => [Exception]
  | JSONDecodeError => [ValueError]
  | RequestException => [OSError]
  | ConnectionError => [RequestException]
  | Timeout => [RequestException]
  | InvalidJSONError => [RequestException]
  | RequestsJSONDecodeError => [InvalidJSONError; JSONDecodeError]
  | DatagenError => [Exception]
  | DatagenAuthError => [DatagenError]
  | DatagenToolError => [DatagenError]
  | DatagenHttpError => [DatagenError]
  end.

(** The class and its ancestors. *)
Fixpoint ancestors (fuel : nat) (c : py_class) : list py_class :=
  c :: match fuel with
       | S n => flat_map (ancestors n) (bases c)
       | O => []
       end.

Definition issubclass (c d : py_class) : bool :=
  existsb (fun a => bool_decide (a = d)) (ancestors 8 c).

(** An exception object: its class and the argument it was built with. *)
Record exn : Type := Exn { exn_class : py_class; exn_arg : value }.

Definition isinstance (e : exn) (c : py_class) : bool :=
  issubclass (exn_class e) c.

(** [except (c1, c2, ...)]: does the clause catch [e]? *)
Definition caught (e : exn) (classes : list py_class) : bool :=
  existsb (isinstance e) classes.

(** An exception object is true. *)
#[global] Instance exn_truthy : Truthy exn := fun _ => true.

(** What a call yields: a value, or a raised exception. *)
Inductive outcome (A : Type) : Type :=
| Return (a : A)
| Raise (e : exn).
Arguments Return {A} a.
Arguments Raise {A} e.

(** [obj.get(key, dflt)]: only a [dict] has the method. *)
Definition py_get (obj : value) (key : string) (dflt : value) : outcome value :=
  match obj with
  | VDict d => Return (default dflt (d !! key))
  | _ => Raise (Exn AttributeError
                  (VStr ("'" ++ type_name obj ++ "' object has no attribute 'get'")))
  end.

(** ** The HTTP library *)

(** The arguments of [requests.post]. *)
Record Request : Type := {
  req_url : string;
  req_json : value;
  req_headers : gmap string string;
  req_timeout : Z
}.

(** A response: [resp.status_code], [resp.text] and what [resp.json()]
    yields (it raises when the body does not decode). *)
Record Response : Type := {
  status_code : Z;
  text : string;
  json : outcome value
}.

(** ** The client *)

Record DatagenClient : Type := {
  api_key : string;
  base_url : string;
  timeout : Z;
  retries : Z;
  backoff_seconds : Q
}.

Definition api_key_missing : exn :=
  Exn DatagenAuthError (VStr "API key missing. Set DATAGEN_API_KEY or pass api_key.").

(** [DatagenClient.__init__], with the process environment as a map.
    [not self.api_key] holds for [None] and for the empty string. *)
Definition DatagenClient_init (environ : gmap string string)
    (api_key : option string) (base_url : string) (timeout retries : Z)
    (backoff_seconds : Q) : outcome DatagenClient :=
  match py_or api_key (environ !! "DATAGEN_API_KEY") with
  | Some key =>
      if negb (truthy key) then Raise api_key_missing
      else Return {| api_key := key;
                     base_url := rstrip "/" base_url;
                     timeout := timeout;
                     retries := retries;
                     backoff_seconds := backoff_seconds |}
  | None => Raise api_key_missing
  end.

(** The state [execute_tool] runs in: the attributes of [self], the
    requests sent so far and the durations slept so far, oldest first. *)
Record World : Type := {
  self : DatagenClient;
  calls : list Request;
  sleeps : list Q
}.

(** The state after one more request, and after one more sleep. *)
Definition posted (w : World) (req : Request) : World :=
  {| self := self w; calls := calls w ++ [req]; sleeps := sleeps w |}.

Definition slept (w : World) (d : Q) : World :=
  {| self := self w; calls := calls w; sleeps := sleeps w ++ [d] |}.

Definition M (A : Type) : Type := World -> outcome A * World.

(** Sequencing: an exception ends the sequence. *)
#[global] Instance outcome_ret : MRet outcome := fun A a => Return a.

#[global] Instance outcome_bind : MBind outcome :=
  fun A B k o =>
    match o with
    | Return a => k a
    | Raise e => Raise e
    end.

#[global] Instance M_ret : MRet M := fun A a w => (Return a, w).

#[global] Instance M_bind : MBind M :=
  fun A B k m w =>
    match m w with
    | (Return a, w') => k a w'
    | (Raise e, w') => (Raise e, w')
    end.

Definition raise {A} (e : exn) : M A := fun w => (Raise e, w).

Definition lift {A} (o : outcome A) : M A := fun w => (o, w).

(** [try: m  except Exception as exc: handler exc] *)
Definition try_except {A} (m : M A) (handler : exn -> M A) : M A :=
  fun w =>
    match m w with
    | (Return a, w') => (Return a, w')
    | (Raise e, w') => handler e w'
    end.

(** Reading an attribute of [self]. *)
Definition attr {A} (field : DatagenClient -> A) : M A :=
  fun w => (Return (field (self w)), w).

(** The run-time system, as far as the retry loop meets it. The product
    [self.backoff_seconds * (2 ** attempt)] of a number and an integer
    can raise ([OverflowError] when the integer does not fit a float),
    and [time.sleep] raises for a duration it does not take
    ([ValueError] for a negative one, [OverflowError] for one too
    large). Each field gives the exception raised, if one is. *)
Record Runtime : Type := {
  mul_error : Q -> Z -> option exn;
  sleep_error : Q -> option exn
}.

(** [b * n] for a number [b] and an integer [n]: when it does not
    raise, the product is exact. *)
Definition py_mul (rt : Runtime) (b : Q) (n : Z) : outcome Q :=
  match mul_error rt b n with
  | Some e => Raise e
  | None => Return (b * inject_Z n)%Q
  end.

(** [time.sleep(d)]: it raises, or the duration is slept and recorded. *)
Definition time_sleep (rt : Runtime) (d : Q) : M unit :=
  fun w =>
    match sleep_error rt d with
    | Some e => (Raise e, w)
    | None => (Return tt, slept w d)
    end.

Definition unknown_error : exn :=
  Exn DatagenError (VStr "Unknown error during tool execution").

Section Client.

(** [str(v)] of a decoded payload, as an f-string formats it. *)
Variable repr : value -> string.

Variable rt : Runtime.

(** The backend and the network: what the n-th call of [requests.post]
    (counted from 0) yields for the request it is given. *)
Variable backend : nat -> Request -> outcome Response.

(** [requests.post(url, json=body, headers=headers, timeout=t)] *)
Definition requests_post (url : string) (body : value)
    (headers : gmap string string) (t : Z) : M Response :=
  fun w =>
    let req := {| req_url := url; req_json := body;
                  req_headers := headers; req_timeout := t |} in
    (backend (length (calls w)) req, posted w req).

(** The statements of the [try] body after the request: the status
    checks and the two envelopes. *)
Definition read_response (resp : Response) : outcome value :=
  if ((status_code resp =? 401) || (status_code resp =? 403))%Z then
    Raise (Exn DatagenAuthError (VStr ("Auth failed: " ++ text resp)))
  else if (status_code resp >=? 400)%Z then
    Raise (Exn DatagenHttpError
             (VStr ("HTTP " ++ str_of_int (status_code resp) ++ ": " ++ text resp)))
  else
    payload ← json resp;
    ok ← py_get payload "success" (VBool false);
    if negb (truthy ok) then
      Raise (Exn DatagenHttpError (VStr ("Unexpected response: " ++ repr payload)))
    else
      tool_payload ← py_get payload "data" (VDict ∅);
      tool_ok ← py_get tool_payload "success" (VBool false);
      if negb (truthy tool_ok) then
        err ← py_get tool_payload "error" VNone;
        Raise (Exn DatagenToolError (py_or err (VStr "Tool reported failure")))
      else
        py_get tool_payload "result" VNone.

(** The body of the [try] statement: one request, then the reading of
    its response. *)
Definition attempt_once (url : string) (body : value)
    (headers : gmap string string) : M value :=
  t ← attr timeout;
  resp ← requests_post url body headers t;
  lift (read_response resp).

(** The [for attempt in ...] loop over the attempts still to make, and
    the statements after it. [last_exc] is the local of that name. *)
Fixpoint attempts (url : string) (body : value) (headers : gmap string string)
    (todo : list Z) (last_exc : option exn) : M value :=
  match todo with
  | [] =>
      if truthy last_exc then
        match last_exc with
        | Some e => raise e
        | None => raise unknown_error
        end
      else raise unknown_error
  | attempt :: rest =>
      try_except (attempt_once url body headers)
        (fun exc =>
           if caught exc [RequestException; DatagenHttpError] then
             n ← attr retries;
             if (attempt <? n)%Z then
               b ← attr backoff_seconds;
               d ← lift (py_mul rt b (2 ^ attempt));
               time_sleep rt d;;
               attempts url body headers rest (Some exc)
             else raise exc
           else raise exc)
  end.

(** [DatagenClient.execute_tool]; an omitted [parameters] is [VNone]. *)
Definition execute_tool (tool_alias_name : string) (parameters : value) : M value :=
  if negb (truthy tool_alias_name) then
    raise (Exn ValueError (VStr "tool_alias_name is required"))
  else
    let body := VDict (<["tool_alias_name" := VStr tool_alias_name]>
                       (<["parameters" := py_or parameters (VDict ∅)]> ∅)) in
    prefix ← attr base_url;
    let url := prefix ++ "/api/tools/execute" in
    key ← attr api_key;
    let headers : gmap string string :=
      <["X-API-Key" := key]> (<["Content-Type" := "application/json"]> ∅) in
    n ← attr retries;
    attempts url body headers (range (n + 1)) None.

End Client.

(** ** Notions the properties are stated with *)

(** The state before a call on client [c]: nothing sent, nothing slept. *)
Definition start (c : DatagenClient) : World :=
  {| self := c; calls := []; sleeps := [] |}.

(** The request an attempt sends, for a client whose timeout is read
    when the attempt starts. *)
Definition request_of (url : string) (body : value)
    (headers : gmap string string) (c : DatagenClient) : Request :=
  {| req_url := url; req_json := body; req_headers := headers;
     req_timeout := timeout c |}.

(** The request [execute_tool] sends on behalf of client [c]. *)
Definition tool_request (c : DatagenClient) (tool_alias_name : string)
    (parameters : value) : Request :=
  request_of (base_url c ++ "/api/tools/execute")
    (VDict (<["tool_alias_name" := VStr tool_alias_name]>
            (<["parameters" := py_or parameters (VDict ∅)]> ∅)))
    (<["X-API-Key" := api_key c]> (<["Content-Type" := "application/json"]> ∅))
    c.

(** The sleep before the retry that follows attempt number [i]. *)
Definition backoff (c : DatagenClient) (i : nat) : Q :=
  (backoff_seconds c * inject_Z (2 ^ Z.of_nat i))%Q.

(** The state after [m] failed attempts, numbered from [i], each followed
    by its sleep. *)
Definition after_failures (w : World) (req : Request) (i m : nat) : World :=
  {| self := self w;
     calls := calls w ++ replicate m req;
     sleeps := sleeps w ++ map (backoff (self w)) (seq i m) |}.

(** The two envelopes of the wire contract:
    [{"success": true, "data": {"success": true, "result": R}}] and
    [{"success": true, "data": {"success": false, "error": X}}]. *)
Definition success_envelope (R : value) : value :=
  VDict (<["success" := VBool true]>
         (<["data" := VDict (<["success" := VBool true]> (<["result" := R]> ∅))]> ∅)).

Definition tool_failure_envelope (X : string) : value :=
  VDict (<["success" := VBool true]>
         (<["data" := VDict (<["success" := VBool false]> (<["error" := VStr X]> ∅))]> ∅)).

(** [s] ends with the path separator. *)
Definition ends_with_slash (s : string) : Prop :=
  exists t : string, s = t ++ "/".

(** [n] path separators. *)
Fixpoint slashes (n : nat) : string :=
  match n with
  | O => ""
  | S k => String "/" (slashes k)
  end.

(** The classes of the SDK's typed errors and of the built-in error the
    argument check raises. *)
Definition typed_classes : list py_class :=
  [DatagenAuthError; ValueError; DatagenHttpError; DatagenToolError].

(** ** Sample data, after [tests/test_client.py] *)

Definition sample_client : DatagenClient :=
  {| api_key := "test_key"; base_url := "http://localhost:3001";
     timeout := 30; retries := 3; backoff_seconds := 1 # 100 |}.

(** A stand-in for the formatting of a payload. *)
Definition sample_repr (v : value) : string :=
  "<" ++ type_name v ++ ">".

(** What [resp.json()] raises for a body that is not JSON, with
    requests 2.27 and later: a [RequestException]. Earlier versions
    raised [json.JSONDecodeError], a [ValueError]. *)
Definition decode_error : exn :=
  Exn RequestsJSONDecodeError (VStr "Expecting value: line 1 column 1 (char 0)").

Definition old_decode_error : exn :=
  Exn JSONDecodeError (VStr "Expecting value: line 1 column 1 (char 0)").

Definition undecodable : outcome value :=
  Raise decode_error.

Definition server_error : Response :=
  {| status_code := 500; text := "Server Error"; json := undecodable |}.

Definition ok_response (R : value) : Response :=
  {| status_code := 200; text := ""; json := Return (success_envelope R) |}.

(** Status 500 for every request. *)
Definition always_failing : nat -> Request -> outcome Response :=
  fun _ _ => Return server_error.

(** Status 500 for the first [k] requests, then success with result [R]. *)
Definition failing_then_ok (k : nat) (R : value) : nat -> Request -> outcome Response :=
  fun j _ => if (j <? k)%nat then Return server_error else Return (ok_response R).

Definition unauthorized : nat -> Request -> outcome Response :=
  fun _ _ => Return {| status_code := 401; text := "Unauthorized"; json := undecodable |}.

(** Every request reaches a tool that reports the failure [X]. *)
Definition tool_failing (X : string) : nat -> Request -> outcome Response :=
  fun _ _ => Return {| status_code := 200; text := "";
                       json := Return (tool_failure_envelope X) |}.

(** No request gets through. *)
Definition unreachable : nat -> Request -> outcome Response :=
  fun _ _ => Raise (Exn ConnectionError (VStr "Connection refused")).

(** Status 200 with a body that decodes to a list, not to an object. *)
Definition malformed : nat -> Request -> outcome Response :=
  fun _ _ => Return {| status_code := 200; text := "[]"; json := Return (VList []) |}.

Definition no_get : exn :=
  Exn AttributeError (VStr "'list' object has no attribute 'get'").

Definition sample_result : value :=
  VDict (<["status" := VStr "ok"]> ∅).

(** An environment that holds a credential, and the client built from
    it when the endpoint is given with its trailing "/". *)
Definition sample_environ : gmap string string :=
  <["DATAGEN_API_KEY" := "env_test_key"]> ∅.

Definition env_client : DatagenClient :=
  {| api_key := "env_test_key"; base_url := "http://localhost:3001";
     timeout := 30; retries := 0; backoff_seconds := 1 # 2 |}.

Definition http_500 : exn :=
  Exn DatagenHttpError (VStr "HTTP 500: Server Error").

Definition connection_refused : exn :=
  Exn ConnectionError (VStr "Connection refused").

(** The time slept in all. *)
Definition total_sleep (l : list Q) : Q :=
  fold_right Qplus 0%Q l.

(** The backend answers a request the same way whenever it is sent. *)
Definition stateless (backend : nat -> Request -> outcome Response) : Prop :=
  forall (j j' : nat) (req : Request), backend j req = backend j' req.

(** Further sample data. *)

Definition overloaded : nat -> Request -> outcome Response :=
  fun j _ =>
    if Nat.even j
    then Return {| status_code := 503; text := "Service Unavailable"; json := undecodable |}
    else Return {| status_code := 404; text := "Not Found"; json := undecodable |}.

(** Status 200 with [{"success": false, "error": "Something went wrong"}]. *)
Definition rejected_payload : value :=
  VDict (<["success" := VBool false]> (<["error" := VStr "Something went wrong"]> ∅)).

Definition rejecting : nat -> Request -> outcome Response :=
  fun _ _ => Return {| status_code := 200; text := ""; json := Return rejected_payload |}.

(** Status 200 with [{"success": true}]: no inner envelope. *)
Definition no_data : nat -> Request -> outcome Response :=
  fun _ _ => Return {| status_code := 200; text := "";
                       json := Return (VDict (<["success" := VBool true]> ∅)) |}.

(** Status 200 with [{"success": 1, "data": {"success": "yes"}}]. *)
Definition loose_success : nat -> Request -> outcome Response :=
  fun _ _ =>
    Return {| status_code := 200; text := "";
              json := Return (VDict (<["success" := VInt 1]>
                                     (<["data" := VDict (<["success" := VStr "yes"]> ∅)]> ∅))) |}.

(** Status 200 with a body that does not decode. *)
Definition garbled : nat -> Request -> outcome Response :=
  fun _ _ => Return {| status_code := 200; text := "<html>"; json := undecodable |}.

(** A client whose retry count is negative. *)
Definition negative_client : DatagenClient :=
  {| api_key := "test_key"; base_url := "http://localhost:3001";
     timeout := 30; retries := -1; backoff_seconds := 1 # 2 |}.

(** ** The run-time system in the properties *)

(** What the sleep step of attempt [a] does for the backoff base [b]:
    the exception of the product or of [time.sleep], or the duration
    slept. *)
Definition backoff_step (rt : Runtime) (b : Q) (a : Z) : outcome Q :=
  d ← py_mul rt b (2 ^ a);
  match sleep_error rt d with
  | Some e => Raise e
  | None => Return d
  end.

(** The run-time system takes the first [n] sleeps of client [c]'s
    schedule: neither the product nor [time.sleep] raises for them. *)
Definition sleeps_accepted (rt : Runtime) (c : DatagenClient) (n : nat) : Prop :=
  forall i : nat, (i < n)%nat ->
    mul_error rt (backoff_seconds c) (2 ^ Z.of_nat i) = None /\
    sleep_error rt (backoff c i) = None.

(** The exception came out of the run-time system's sleep step. *)
Definition from_runtime (rt : Runtime) (e : exn) : Prop :=
  (exists (b : Q) (n : Z), mul_error rt b n = Some e) \/
  (exists d : Q, sleep_error rt d = Some e).

(** A sample run-time system: CPython on a 64-bit platform with a float
    as the backoff base. An integer from [2 ** 1024] on does not convert
    to a float; [time.sleep] takes a duration that fits 64 bits of
    nanoseconds and is not negative. *)
Definition max_sleep : Q := 9223372036854775807 # 1000000000.

Definition cpython : Runtime :=
  {| mul_error := fun _ n =>
       if (2 ^ 1024 <=? n)%Z
       then Some (Exn OverflowError (VStr "int too large to convert to float"))
       else None;
     sleep_error := fun d =>
       if negb (Qle_bool (- max_sleep) d && Qle_bool d max_sleep)
       then Some (Exn OverflowError
                    (VStr "timestamp too large to convert to C _PyTime_t"))
       else if negb (Qle_bool 0 d)
       then Some (Exn ValueError (VStr "sleep length must be non-negative"))
       else None |}.

(** Clients whose backoff base the run-time system refuses. *)
Definition hasty_client : DatagenClient :=
  {| api_key := "test_key"; base_url := "http://localhost:3001";
     timeout := 30; retries := 1; backoff_seconds := - (1 # 2) |}.

Definition patient_client : DatagenClient :=
  {| api_key := "test_key"; base_url := "http://localhost:3001";
     timeout := 30; retries := 1; backoff_seconds := inject_Z (2 ^ 1023) |}.

(** Status 200 with a body that does not decode, under a version of
    requests that raises [json.JSONDecodeError]. *)
Definition garbled_old : nat -> Request -> outcome Response :=
  fun _ _ => Return {| status_code := 200; text := "<html>";
                       json := Raise old_decode_error |}.

(** Two requests that do not get through, then success with result [R]. *)
Definition flaky (R : value) : nat -> Request -> outcome Response :=
  fun j _ => if (j <? 2)%nat
             then Raise (Exn Timeout (VStr "Read timed out."))
             else Return (ok_response R).

(** Two bodies that do not decode, then success with result [R]. *)
Definition garbled_then_ok (R : value) : nat -> Request -> outcome Response :=
  fun j _ => if (j <? 2)%nat
             then Return {| status_code := 200; text := "<html>"; json := undecodable |}
             else Return (ok_response R).

(** A response that follows the wire contract as far as the reading
    goes: below status 400 its body decodes to an object whose "data",
    when present, is an object. *)
Definition conforming (r : Response) : Prop :=
  (status_code r < 400)%Z ->
  exists p : gmap string value,
    json r = Return (VDict p) /\
    forall v : value, p !! "data" = Some v -> exists d, v = VDict d.

(** The backend answers every sending of [req] by such a response. *)
Definition delivers (backend : nat -> Request -> outcome Response)
    (req : Request) : Prop :=
  forall j : nat, exists r, backend j req = Return r /\ conforming r.


(** ** The retry loop *)

Section Properties.

Variable repr : value -> string.
Variable rt : Runtime.
Variable backend : nat -> Request -> outcome Response.

(** What the attempt that sends the [j]-th request yields. *)
Definition attempt_result (j : nat) (req : Request) : outcome value :=
  backend j req ≫= read_response repr.

(** The exception came out of the HTTP library: [requests.post] raised
    it, or [resp.json()] did. *)
Definition from_library (e : exn) : Prop :=
  exists (j : nat) (req : Request),
    backend j req = Raise e \/
    exists resp, backend j req = Return resp /\ json resp = Raise e.

(** A sleep the run-time system takes lasts what the schedule says. *)
Lemma backoff_step_accepted (c : DatagenClient) (n i : nat) :
  sleeps_accepted rt c n -> (i < n)%nat ->
  backoff_step rt (backoff_seconds c) (Z.of_nat i) = Return (backoff c i).
Proof.
  intros Hacc Hi. destruct (Hacc i Hi) as [Hmul Hsleep].
  unfold backoff_step, py_mul. rewrite Hmul. simpl.
  fold (backoff c i). rewrite Hsleep. reflexivity.
Qed.

(** A sleep step that returns slept what the schedule says; one that
    raises raised what the run-time system raised. *)
Lemma backoff_step_cases (b : Q) (a : Z) :
  backoff_step rt b a = Return (b * inject_Z (2 ^ a))%Q \/
  exists e, backoff_step rt b a = Raise e /\ from_runtime rt e.
Proof.
  unfold backoff_step, py_mul, from_runtime.
  destruct (mul_error rt b (2 ^ a)) as [e|] eqn:Hmul; simpl.
  - right. exists e. split; [reflexivity|]. left. eauto.
  - destruct (sleep_error rt _) as [e|] eqn:Hsleep.
    + right. exists e. split; [reflexivity|]. right. eauto.
    + left. reflexivity.
Qed.

Section Loop.

Variables (url : string) (body : value) (headers : gmap string string).

Let req := request_of url body headers.
Let loop := attempts repr rt backend url body headers.

Lemma attempt_once_run (w : World) :
  attempt_once repr backend url body headers w =
    (attempt_result (length (calls w)) (req (self w)), posted w (req (self w))).
Proof.
  unfold attempt_once, attempt_result, requests_post, attr, lift, req, request_of.
  unfold mbind, M_bind, outcome_bind. simpl.
  destruct (backend _ _); reflexivity.
Qed.

(** One turn of the loop. *)
Lemma attempts_cons (a : Z) (rest : list Z) (last_exc : option exn) (w : World) :
  loop (a :: rest) last_exc w =
    match attempt_result (length (calls w)) (req (self w)) with
    | Return v => (Return v, posted w (req (self w)))
    | Raise e =>
        if caught e [RequestException; DatagenHttpError] then
          if (a <? retries (self w))%Z then
            match backoff_step rt (backoff_seconds (self w)) a with
            | Return d => loop rest (Some e) (slept (posted w (req (self w))) d)
            | Raise e' => (Raise e', posted w (req (self w)))
            end
          else (Raise e, posted w (req (self w)))
        else (Raise e, posted w (req (self w)))
    end.
Proof.
  unfold loop. cbn [attempts]. unfold try_except. rewrite attempt_once_run.
  destruct (attempt_result _ _) as [v|e]; [reflexivity|].
  destruct (caught e _); [|reflexivity].
  unfold mbind, M_bind, attr, raise. cbn [self posted].
  destruct (_ <? _)%Z; [|reflexivity].
  unfold backoff_step, py_mul, lift, time_sleep, mbind, outcome_bind.
  destruct (mul_error rt _ _); [reflexivity|].
  destruct (sleep_error rt _); reflexivity.
Qed.

Lemma attempts_nil (last_exc : option exn) (w : World) :
  loop [] last_exc w =
    (Raise (default unknown_error last_exc), w).
Proof. unfold loop. destruct last_exc; reflexivity. Qed.

(** The loop leaves the attributes of [self] as they are. *)
Lemma attempts_self (todo : list Z) :
  forall (last_exc : option exn) (w : World),
    self (snd (loop todo last_exc w)) = self w.
Proof.
  induction todo as [|a rest IH]; intros last_exc w.
  - rewrite attempts_nil. reflexivity.
  - rewrite attempts_cons.
    destruct (attempt_result _ _) as [v|e]; [reflexivity|].
    destruct (caught e _); [|reflexivity].
    destruct (_ <? _)%Z; [|reflexivity].
    destruct (backoff_step _ _ _); [|reflexivity].
    rewrite IH. reflexivity.
Qed.

(** A streak of [m] failed attempts that the [except] clause catches
    and that are followed by a retry whose sleep the run-time system
    takes: the loop goes on with the rest of its attempts after [m]
    requests and [m] sleeps. *)
Lemma attempts_streak (m : nat) :
  forall (i : nat) (rest : list Z) (last_exc : option exn) (w : World),
    length (calls w) = i ->
    sleeps_accepted rt (self w) (i + m) ->
    (forall j : nat, (i <= j < i + m)%nat ->
       (Z.of_nat j < retries (self w))%Z /\
       exists e, attempt_result j (req (self w)) = Raise e /\
                 caught e [RequestException; DatagenHttpError] = true) ->
    exists last_exc',
      loop (map Z.of_nat (seq i m) ++ rest) last_exc w =
        loop rest last_exc' (after_failures w (req (self w)) i m).
Proof.
  induction m as [|m IH]; intros i rest last_exc w Hlen Hacc Hfail.
  - exists last_exc. simpl. unfold after_failures. simpl.
    rewrite !app_nil_r. destruct w; reflexivity.
  - destruct (Hfail i ltac:(lia)) as [Hlt (e & He & Hc)].
    simpl. rewrite attempts_cons, Hlen, He, Hc.
    apply Z.ltb_lt in Hlt. rewrite Hlt.
    rewrite (backoff_step_accepted (self w) (i + S m) i Hacc) by lia.
    set (w1 := slept _ _).
    destruct (IH (S i) rest (Some e) w1) as [last' Hrun].
    + unfold w1. simpl. rewrite length_app. simpl. lia.
    + unfold w1. cbn [self slept posted].
      replace (S i + m)%nat with (i + S m)%nat by lia. exact Hacc.
    + intros j Hj. apply (Hfail j). lia.
    + exists last'. rewrite Hrun. f_equal.
      unfold after_failures, w1. simpl.
      rewrite <- !app_assoc. reflexivity.
Qed.

(** How the loop over the attempts numbered [i .. i+m-1], the last of
    which is attempt [retries], ends when it starts with [i] requests
    sent. It makes [k >= 1] attempts, each with the same request, and
    sleeps by the schedule between them. All but the last attempt
    failed and were retried. The loop ends with what its last attempt
    yields, or, when that attempt is to be retried, with what the sleep
    step after it raises. *)
Lemma attempts_exit (m : nat) :
  forall (i : nat) (last_exc : option exn) (w : World),
    (1 <= m)%nat ->
    length (calls w) = i ->
    (Z.of_nat (i + m) = retries (self w) + 1)%Z ->
    let final := loop (map Z.of_nat (seq i m)) last_exc w in
    exists k : nat,
      (1 <= k <= m)%nat /\
      calls (snd final) = (calls w ++ replicate k (req (self w)))%list /\
      sleeps (snd final) = (sleeps w ++ map (backoff (self w)) (seq i (k - 1)))%list /\
      (forall j : nat, (i <= j < i + k - 1)%nat ->
         exists e, attempt_result j (req (self w)) = Raise e /\
                   caught e [RequestException; DatagenHttpError] = true) /\
      (fst final = attempt_result (i + k - 1) (req (self w)) \/
       exists e0 e,
         attempt_result (i + k - 1) (req (self w)) = Raise e0 /\
         caught e0 [RequestException; DatagenHttpError] = true /\
         (Z.of_nat (i + k - 1) < retries (self w))%Z /\
         backoff_step rt (backoff_seconds (self w)) (Z.of_nat (i + k - 1)) = Raise e /\
         fst final = Raise e).
Proof.
  induction m as [|m IH]; intros i last_exc w Hm Hlen Hlast; [lia|].
  cbn [seq map]. cbn zeta. rewrite attempts_cons. rewrite Hlen.
  assert (Hone : forall o : outcome value,
    attempt_result i (req (self w)) = o ->
    let final := (o, posted w (req (self w))) in
    exists k : nat,
      (1 <= k <= S m)%nat /\
      calls (snd final) = (calls w ++ replicate k (req (self w)))%list /\
      sleeps (snd final) = (sleeps w ++ map (backoff (self w)) (seq i (k - 1)))%list /\
      (forall j : nat, (i <= j < i + k - 1)%nat ->
         exists e, attempt_result j (req (self w)) = Raise e /\
                   caught e [RequestException; DatagenHttpError] = true) /\
      (fst final = attempt_result (i + k - 1) (req (self w)) \/
       exists e0 e,
         attempt_result (i + k - 1) (req (self w)) = Raise e0 /\
         caught e0 [RequestException; DatagenHttpError] = true /\
         (Z.of_nat (i + k - 1) < retries (self w))%Z /\
         backoff_step rt (backoff_seconds (self w)) (Z.of_nat (i + k - 1)) = Raise e /\
         fst final = Raise e)).
  { intros o Ho. exists 1%nat. simpl. rewrite app_nil_r.
    split; [lia|]. split; [done|]. split; [done|].
    split; [intros j Hj; lia|].
    left. replace (i + 1 - 1)%nat with i by lia. by rewrite Ho. }
  destruct (attempt_result i (req (self w))) as [v|e] eqn:Hres;
    [by apply (Hone (Return v))|].
  destruct (caught e _) eqn:Hc; [|by apply (Hone (Raise e))].
  destruct (_ <? _)%Z eqn:Hlt; [|by apply (Hone (Raise e))].
  apply Z.ltb_lt in Hlt.
  destruct (backoff_step_cases (backoff_seconds (self w)) (Z.of_nat i))
    as [Hstep | (e' & Hstep & _)]; rewrite Hstep.
  - set (w1 := slept _ _).
    destruct (IH (S i) (Some e) w1 ltac:(lia)) as (k & Hk & Hcalls & Hsleeps & Hprev & Hend).
    { unfold w1. simpl. rewrite length_app. simpl. lia. }
    { unfold w1. simpl. lia. }
    exists (S k). cbn zeta in Hcalls, Hsleeps, Hend.
    change (self w1) with (self w) in *.
    replace (S i + k - 1)%nat with (i + S k - 1)%nat in * by lia.
    split; [lia|]. split; [|split; [|split]].
    + rewrite Hcalls. unfold w1. simpl. by rewrite <- app_assoc.
    + rewrite Hsleeps. unfold w1. simpl. rewrite <- app_assoc. simpl.
      replace (k - 0)%nat with (S (k - 1)) by lia. reflexivity.
    + intros j Hj. destruct (decide (j = i)) as [-> | Hne]; [eauto|].
      apply Hprev. lia.
    + exact Hend.
  - exists 1%nat. simpl. rewrite app_nil_r.
    split; [lia|]. split; [done|]. split; [done|].
    split; [intros j Hj; lia|].
    right. exists e, e'. replace (i + 1 - 1)%nat with i by lia. done.
Qed.

(** Against a stateless backend the loop's outcome depends on the state
    through the attributes of [self] alone. *)
Lemma attempts_stateless (todo : list Z) :
  stateless backend ->
  forall (last_exc : option exn) (w1 w2 : World),
    self w1 = self w2 ->
    fst (loop todo last_exc w1) = fst (loop todo last_exc w2).
Proof.
  intros Hst. induction todo as [|a rest IH]; intros last_exc w1 w2 Hself.
  - rewrite !attempts_nil. reflexivity.
  - rewrite !attempts_cons. unfold attempt_result.
    rewrite (Hst (length (calls w1)) (length (calls w2))), Hself.
    destruct (_ ≫= _) as [v|e]; [reflexivity|].
    destruct (caught e _); [|reflexivity].
    destruct (_ <? _)%Z; [|reflexivity].
    destruct (backoff_step _ _ _); [|reflexivity].
    apply IH. simpl. exact Hself.
Qed.

End Loop.

End Properties.

(** ** Reading a response, and the whole call *)

Section Call.

Variable repr : value -> string.
Variable rt : Runtime.
Variable backend : nat -> Request -> outcome Response.

Lemma truthy_string (s : string) : truthy s = true <-> s <> "".
Proof. destruct s; simpl; split; intros; done. Qed.

Ltac below_400 :=
  unfold read_response;
  replace (status_code _ =? 401)%Z with false by lia;
  replace (status_code _ =? 403)%Z with false by lia;
  replace (status_code _ >=? 400)%Z with false by lia.

Lemma read_response_auth (r : Response) :
  status_code r = 401%Z \/ status_code r = 403%Z ->
  read_response repr r =
    Raise (Exn DatagenAuthError (VStr ("Auth failed: " ++ text r))).
Proof. unfold read_response. intros [-> | ->]; reflexivity. Qed.


(** Any status from 400 on, 401 and 403 apart, gives the HTTP error
    that names the status. *)
Lemma read_response_http (r : Response) :
  (400 <= status_code r)%Z ->
  status_code r <> 401%Z -> status_code r <> 403%Z ->
  read_response repr r =
    Raise (Exn DatagenHttpError
             (VStr ("HTTP " ++ str_of_int (status_code r) ++ ": " ++ text r))).
Proof.
  intros H400 H401 H403. unfold read_response.
  replace (status_code r =? 401)%Z with false by lia.
  replace (status_code r =? 403)%Z with false by lia.
  replace (status_code r >=? 400)%Z with true by lia.
  reflexivity.
Qed.

Lemma read_response_success (r : Response) (R : value) :
  (status_code r < 400)%Z ->
  json r = Return (success_envelope R) ->
  read_response repr r = Return R.
Proof. intros Hs Hj. below_400. rewrite Hj. reflexivity. Qed.

Lemma read_response_tool_failure (r : Response) (X : string) :
  (status_code r < 400)%Z ->
  json r = Return (tool_failure_envelope X) ->
  read_response repr r =
    Raise (Exn DatagenToolError (py_or (VStr X) (VStr "Tool reported failure"))).
Proof. intros Hs Hj. below_400. rewrite Hj. reflexivity. Qed.

(** Below 400, a payload whose "success" is missing or false gives the
    HTTP error that shows the payload. *)
Lemma read_response_rejected (r : Response) (p : gmap string value) :
  (status_code r < 400)%Z ->
  json r = Return (VDict p) ->
  truthy (default (VBool false) (p !! "success")) = false ->
  read_response repr r =
    Raise (Exn DatagenHttpError (VStr ("Unexpected response: " ++ repr (VDict p)))).
Proof. intros Hs Hj Hok. below_400. rewrite Hj. simpl. rewrite Hok. reflexivity. Qed.

(** Below 400, what [resp.json()] raises is what the attempt raises. *)
Lemma read_response_undecodable (r : Response) (e : exn) :
  (status_code r < 400)%Z ->
  json r = Raise e ->
  read_response repr r = Raise e.
Proof. intros Hs Hj. below_400. rewrite Hj. reflexivity. Qed.

(** The reading of a payload below status 400 whose outer envelope
    reports success and whose inner envelope is the object [d] (the
    empty object when "data" is missing). *)
Lemma read_response_inner (r : Response) (p d : gmap string value) :
  (status_code r < 400)%Z ->
  json r = Return (VDict p) ->
  truthy (default (VBool false) (p !! "success")) = true ->
  default (VDict ∅) (p !! "data") = VDict d ->
  read_response repr r =
    if truthy (default (VBool false) (d !! "success"))
    then Return (default VNone (d !! "result"))
    else Raise (Exn DatagenToolError
                  (py_or (default VNone (d !! "error")) (VStr "Tool reported failure"))).
Proof.
  intros Hs Hj Hok Hdata. below_400.
  rewrite Hj. simpl. rewrite Hok. simpl. rewrite Hdata. simpl.
  destruct (truthy (default (VBool false) (d !! "success"))); reflexivity.
Qed.

(** What the reading of a response can raise. *)
Lemma read_response_raise (r : Response) (e : exn) :
  read_response repr r = Raise e ->
  In (exn_class e) [DatagenAuthError; DatagenHttpError; DatagenToolError] \/
  json r = Raise e \/
  exn_class e = AttributeError.
Proof.
  unfold read_response.
  destruct (_ || _)%Z; [intros [= <-]; simpl; tauto|].
  destruct (_ >=? _)%Z; [intros [= <-]; simpl; tauto|].
  destruct (json r) as [payload|e0]; simpl; [|intros [= <-]; tauto].
  destruct payload; simpl; try (intros [= <-]; simpl; tauto).
  destruct (negb _); [intros [= <-]; simpl; tauto|].
  destruct (default _ _); simpl; try (intros [= <-]; simpl; tauto).
  destruct (negb _); [intros [= <-]; simpl; tauto|discriminate].
Qed.

Lemma attempt_result_raise (j : nat) (req : Request) (e : exn) :
  attempt_result repr backend j req = Raise e ->
  In (exn_class e) [DatagenAuthError; DatagenHttpError; DatagenToolError] \/
  from_library backend e \/
  exn_class e = AttributeError.
Proof.
  unfold attempt_result, from_library.
  destruct (backend j req) as [r|e0] eqn:Hb; simpl.
  - intros H. apply read_response_raise in H as [H | [H | H]]; eauto 10.
  - intros [= <-]. eauto 10.
Qed.

Lemma range_split (n : Z) (k : nat) :
  (0 <= n)%Z -> (k <= Z.to_nat n)%nat ->
  range (n + 1) =
    (map Z.of_nat (seq 0 k) ++
     Z.of_nat k :: map Z.of_nat (seq (S k) (Z.to_nat n - k)))%list.
Proof.
  intros Hn Hk. unfold range.
  replace (Z.to_nat (n + 1)) with (k + S (Z.to_nat n - k))%nat by lia.
  rewrite seq_app, map_app. reflexivity.
Qed.

(** With a tool name, the call is the loop over [range(retries + 1)],
    on the request built from the arguments. *)
Lemma execute_tool_run (name : string) (parameters : value) (w : World) :
  name <> "" ->
  let rq := tool_request (self w) name parameters in
  execute_tool repr rt backend name parameters w =
    attempts repr rt backend (req_url rq) (req_json rq) (req_headers rq)
      (range (retries (self w) + 1)) None w.
Proof.
  intros Hname. apply truthy_string in Hname.
  unfold execute_tool. rewrite Hname. reflexivity.
Qed.

(** The call after [k] attempts that failed and were retried, each after
    a sleep the run-time system took: attempt [k] decides, when it
    succeeds, when it raises something the [except] clause does not
    catch, and when it is the last one. *)
Lemma execute_tool_outcome (c : DatagenClient) (name : string)
    (parameters : value) (k : nat) :
  name <> "" ->
  (Z.of_nat k <= retries c)%Z ->
  sleeps_accepted rt c k ->
  let req := tool_request c name parameters in
  (forall j : nat, (j < k)%nat ->
     exists e, attempt_result repr backend j req = Raise e /\
               caught e [RequestException; DatagenHttpError] = true) ->
  let w' := posted (after_failures (start c) req 0 k) req in
  (forall v, attempt_result repr backend k req = Return v ->
     execute_tool repr rt backend name parameters (start c) = (Return v, w')) /\
  (forall e, attempt_result repr backend k req = Raise e ->
     caught e [RequestException; DatagenHttpError] = false \/
     Z.of_nat k = retries c ->
     execute_tool repr rt backend name parameters (start c) = (Raise e, w')).
Proof.
  intros Hname Hk Hacc req Hfail w'.
  rewrite execute_tool_run by done. simpl self. fold req.
  rewrite (range_split (retries c) k) by lia.
  destruct (attempts_streak repr rt backend (req_url req) (req_json req) (req_headers req)
              k 0 (Z.of_nat k :: map Z.of_nat (seq (S k) (Z.to_nat (retries c) - k)))
              None (start c)) as [last' Hrun]; [reflexivity|exact Hacc| |rewrite Hrun].
  { intros j Hj. split; [simpl; lia|]. apply Hfail. lia. }
  rewrite attempts_cons.
  replace (length (calls (after_failures (start c) _ 0 k))) with k
    by (simpl; rewrite length_replicate; reflexivity).
  change (request_of _ _ _ (self _)) with req.
  split.
  - intros v ->. reflexivity.
  - intros e -> [-> | Hlast]; [reflexivity|].
    destruct (caught e _); [|reflexivity].
    replace (_ <? _)%Z with false by (simpl; lia). reflexivity.
Qed.

(** The call leaves the attributes of [self] as they are. *)
Lemma execute_tool_self (name : string) (parameters : value) (w : World) :
  self (snd (execute_tool repr rt backend name parameters w)) = self w.
Proof.
  destruct (decide (name = "")) as [-> | Hname]; [reflexivity|].
  rewrite execute_tool_run by done. apply attempts_self.
Qed.

(** How a call with a tool name ends when [retries >= 0]: see
    [attempts_exit]. *)
Lemma execute_tool_exit (c : DatagenClient) (name : string) (parameters : value) :
  name <> "" ->
  (0 <= retries c)%Z ->
  let req := tool_request c name parameters in
  let final := execute_tool repr rt backend name parameters (start c) in
  exists k : nat,
    (1 <= k <= Z.to_nat (retries c) + 1)%nat /\
    calls (snd final) = replicate k req /\
    sleeps (snd final) = map (backoff c) (seq 0 (k - 1)) /\
    (forall j : nat, (j < k - 1)%nat ->
       exists e, attempt_result repr backend j req = Raise e /\
                 caught e [RequestException; DatagenHttpError] = true) /\
    (fst final = attempt_result repr backend (k - 1) req \/
     exists e0 e,
       attempt_result repr backend (k - 1) req = Raise e0 /\
       caught e0 [RequestException; DatagenHttpError] = true /\
       (Z.of_nat (k - 1) < retries c)%Z /\
       backoff_step rt (backoff_seconds c) (Z.of_nat (k - 1)) = Raise e /\
       fst final = Raise e).
Proof.
  intros Hname Hn req final. unfold final.
  rewrite execute_tool_run by done. unfold range. fold req.
  destruct (attempts_exit repr rt backend (req_url req) (req_json req) (req_headers req)
              (Z.to_nat (retries c + 1)) 0 None (start c))
    as (k & Hk & Hcalls & Hsleeps & Hprev & Hend); [lia|reflexivity|simpl; lia|].
  exists k. split; [lia|]. split; [exact Hcalls|]. split; [exact Hsleeps|].
  split; [intros j Hj; apply Hprev; lia|exact Hend].
Qed.

(** With [retries < 0] there is no attempt to make: the statements
    after the loop raise the generic error. *)
Lemma negative_retries_unknown_error (name : string) (parameters : value) (w : World) :
  name <> "" ->
  (retries (self w) < 0)%Z ->
  execute_tool repr rt backend name parameters w = (Raise unknown_error, w).
Proof.
  intros Hname Hn. rewrite execute_tool_run by done.
  unfold range. replace (Z.to_nat (retries (self w) + 1)) with 0%nat by lia.
  reflexivity.
Qed.

End Call.

(** ** The constructor *)

Section Construction.

Variable environ : gmap string string.

Lemma append_nil_l (s : string) : "" ++ s = s.
Proof. reflexivity. Qed.

Lemma append_cons (c : ascii) (s t : string) : String c s ++ t = String c (s ++ t).
Proof. reflexivity. Qed.

Lemma append_nil_r (s : string) : s ++ "" = s.
Proof. induction s as [|c s IH]; [reflexivity|]. by rewrite append_cons, IH. Qed.

Lemma append_assoc (s t u : string) : (s ++ t) ++ u = s ++ (t ++ u).
Proof. induction s as [|c s IH]; [reflexivity|]. by rewrite !append_cons, IH. Qed.

Ltac string_norm :=
  repeat (rewrite ?append_cons, ?append_nil_l, ?append_nil_r in * ).

Lemma slashes_snoc (n : nat) : slashes (S n) = slashes n ++ "/".
Proof.
  induction n as [|n IH]; [reflexivity|].
  change (slashes (S (S n))) with (String "/" (slashes (S n))).
  rewrite IH at 1. reflexivity.
Qed.

Lemma rstrip_snoc (s : string) : rstrip "/" (s ++ "/") = rstrip "/" s.
Proof.
  induction s as [|c s IH]; [reflexivity|].
  rewrite append_cons. cbn [rstrip]. by rewrite IH.
Qed.

(** Nothing is removed from a string that does not end with "/". *)
Lemma rstrip_fixed (s : string) : ~ ends_with_slash s -> rstrip "/" s = s.
Proof.
  induction s as [|c s IH]; intros Hs; [reflexivity|].
  cbn [rstrip]. destruct s as [|d s'].
  - simpl. destruct (Ascii.eqb_spec c "/") as [-> | _]; [|reflexivity].
    destruct Hs. by exists "".
  - rewrite IH; [reflexivity|].
    intros [t Ht]. apply Hs. exists (String c t). by rewrite append_cons, Ht.
Qed.

(** What is kept does not end with "/". *)
Lemma rstrip_no_trailing (s : string) : ~ ends_with_slash (rstrip "/" s).
Proof.
  induction s as [|c s IH]; intros [t Ht].
  - destruct t; string_norm; discriminate.
  - cbn [rstrip] in Ht. destruct (rstrip "/" s) as [|d k] eqn:Hk.
    + simpl in Ht. destruct (Ascii.eqb_spec c "/") as [-> | Hc]; simpl in Ht.
      * destruct t; string_norm; discriminate.
      * destruct t as [|c' [|c'' t']]; string_norm; congruence.
    + destruct t as [|c' t']; string_norm; [congruence|].
      apply IH. exists t'. congruence.
Qed.

(** What is removed is a run of "/". *)
Lemma rstrip_removed (s : string) :
  exists n : nat, s = rstrip "/" s ++ slashes n.
Proof.
  induction s as [|c s [n IH]]; [by exists 0%nat|].
  cbn [rstrip]. destruct (rstrip "/" s) as [|d k] eqn:Hk.
  - rewrite append_nil_l in IH. simpl.
    destruct (Ascii.eqb_spec c "/") as [-> | Hc]; simpl.
    + exists (S n). by rewrite append_nil_l, IH.
    + exists n. by rewrite append_cons, append_nil_l, IH.
  - exists n. by rewrite append_cons, <- IH.
Qed.

Lemma rstrip_slashes (t : string) (n : nat) :
  ~ ends_with_slash t -> rstrip "/" (t ++ slashes n) = t.
Proof.
  intros Ht. induction n as [|n IH].
  - change (slashes 0) with "". rewrite append_nil_r. by apply rstrip_fixed.
  - rewrite slashes_snoc, <- append_assoc, rstrip_snoc. exact IH.
Qed.

(** C3, as amended. The constructor stores the endpoint without any of
    its trailing "/": what it removes is the whole run of "/" the
    endpoint ends with. So an endpoint that ends with one "/" loses that
    one character, an endpoint that does not end with "/" is stored as it
    is, and an endpoint that ends with several "/" loses them all. *)
Theorem base_url_stripped (api_key : option string) (url : string)
    (timeout retries : Z) (backoff_seconds : Q) (c : DatagenClient) :
  DatagenClient_init environ api_key url timeout retries backoff_seconds = Return c ->
  ~ ends_with_slash (base_url c) /\
  (exists n : nat, url = base_url c ++ slashes n) /\
  (~ ends_with_slash url -> base_url c = url) /\
  (forall t : string, ~ ends_with_slash t ->
     (url = t ++ "/" -> base_url c = t) /\
     (forall n : nat, url = t ++ slashes n -> base_url c = t)).
Proof.
  unfold DatagenClient_init. intros Hinit.
  assert (base_url c = rstrip "/" url) as ->.
  { destruct (py_or _ _) as [key|]; [|discriminate].
    destruct (negb _); [discriminate|]. by inversion Hinit. }
  split; [apply rstrip_no_trailing|].
  split; [apply rstrip_removed|].
  split; [apply rstrip_fixed|].
  intros t Ht. split.
  - intros ->. apply (rstrip_slashes t 1 Ht).
  - intros n ->. by apply rstrip_slashes.
Qed.

(** C10. An empty string given as the credential does not count as
    given: the constructor does what it does without a credential, it
    takes the environment's value when that is set and not empty, and
    raises the authentication error otherwise. *)
Theorem empty_api_key_falls_back (url : string) (timeout retries : Z)
    (backoff_seconds : Q) :
  DatagenClient_init environ (Some "") url timeout retries backoff_seconds =
    DatagenClient_init environ None url timeout retries backoff_seconds /\
  (forall key : string,
     environ !! "DATAGEN_API_KEY" = Some key -> key <> "" ->
     DatagenClient_init environ (Some "") url timeout retries backoff_seconds =
       Return {| api_key := key; base_url := rstrip "/" url; timeout := timeout;
                 retries := retries; backoff_seconds := backoff_seconds |}) /\
  (environ !! "DATAGEN_API_KEY" = None \/ environ !! "DATAGEN_API_KEY" = Some "" ->
     DatagenClient_init environ (Some "") url timeout retries backoff_seconds =
       Raise api_key_missing /\
     exn_class api_key_missing = DatagenAuthError).
Proof.
  unfold DatagenClient_init, py_or. simpl.
  split; [reflexivity|]. split.
  - intros key -> Hkey. destruct key; [done|reflexivity].
  - intros [-> | ->]; split; reflexivity.
Qed.

(** The constructor raises nothing but the authentication error. *)
Lemma init_raises (api_key : option string) (url : string)
    (timeout retries : Z) (backoff_seconds : Q) (e : exn) :
  DatagenClient_init environ api_key url timeout retries backoff_seconds = Raise e ->
  e = api_key_missing.
Proof.
  unfold DatagenClient_init.
  destruct (py_or _ _) as [key|]; [|congruence].
  destruct (negb _); congruence.
Qed.

End Construction.

(** ** The properties of [execute_tool] *)

Section Claims.

Variable repr : value -> string.
Variable rt : Runtime.
Variable backend : nat -> Request -> outcome Response.


(** The state in which a call ends whose attempt [k] was the last. *)
Lemma final_world (c : DatagenClient) (req : Request) (k : nat) :
  let w' := posted (after_failures (start c) req 0 k) req in
  self w' = c /\
  length (calls w') = (k + 1)%nat /\
  sleeps w' = map (backoff c) (seq 0 k).
Proof.
  simpl. rewrite length_app, length_replicate. simpl.
  repeat split; lia.
Qed.

(** The run-time system takes the first sleeps when it takes more. *)
Lemma sleeps_accepted_le (c : DatagenClient) (n k : nat) :
  (k <= n)%nat -> sleeps_accepted rt c n -> sleeps_accepted rt c k.
Proof. intros Hk Hacc i Hi. apply Hacc. lia. Qed.


(** When the first [k] attempts fail with something that is caught,
    each followed by a sleep the run-time system takes, and attempt [k]
    ends the call, the call ends with what attempt [k] yields, after
    [k + 1] requests and [k] sleeps, those of the schedule. *)
Lemma execute_tool_ends_at (c : DatagenClient) (name : string)
    (parameters : value) (k : nat) (o : outcome value) :
  name <> "" ->
  (Z.of_nat k <= retries c)%Z ->
  sleeps_accepted rt c k ->
  let req := tool_request c name parameters in
  let final := execute_tool repr rt backend name parameters (start c) in
  (forall j : nat, (j < k)%nat ->
     exists e, attempt_result repr backend j req = Raise e /\
               caught e [RequestException; DatagenHttpError] = true) ->
  attempt_result repr backend k req = o ->
  (forall e, o = Raise e ->
     caught e [RequestException; DatagenHttpError] = false \/
     Z.of_nat k = retries c) ->
  fst final = o /\
  calls (snd final) = replicate (k + 1) req /\
  length (calls (snd final)) = (k + 1)%nat /\
  sleeps (snd final) = map (backoff c) (seq 0 k) /\
  length (sleeps (snd final)) = k.
Proof.
  intros Hname Hk Hacc req final Hfail Hres Hlast.
  destruct (execute_tool_outcome repr rt backend c name parameters k Hname Hk Hacc Hfail)
    as [Hret Hraise].
  assert (Hrun : final = (o, posted (after_failures (start c) req 0 k) req)).
  { unfold final. destruct o as [v|e]; [by apply Hret|].
    apply Hraise; [exact Hres|by apply Hlast]. }
  rewrite Hrun. cbn [fst snd posted after_failures calls sleeps start self].
  rewrite !app_nil_l.
  split; [reflexivity|].
  split; [by rewrite Nat.add_1_r, replicate_S_end|].
  split; [rewrite length_app, length_replicate; simpl; lia|].
  split; [reflexivity|]. by rewrite length_map, length_seq.
Qed.



(** When the first attempt returns, or raises something the [except]
    clause does not catch, the call ends there: one request, no sleep. *)
Lemma first_attempt_ends (c : DatagenClient) (name : string) (parameters : value)
    (o : outcome value) :
  name <> "" ->
  (0 <= retries c)%Z ->
  let req := tool_request c name parameters in
  let final := execute_tool repr rt backend name parameters (start c) in
  attempt_result repr backend 0 req = o ->
  (forall e, o = Raise e -> caught e [RequestException; DatagenHttpError] = false) ->
  fst final = o /\ calls (snd final) = [req] /\ sleeps (snd final) = [].
Proof.
  intros Hname Hn req final Hres Hc.
  destruct (execute_tool_ends_at c name parameters 0 o Hname ltac:(lia))
    as (Hf & Hcalls & _ & Hsleeps & _).
  - intros i Hi. lia.
  - intros j Hj. lia.
  - exact Hres.
  - intros e He. left. by apply Hc.
  - split; [exact Hf|]. split; [exact Hcalls|exact Hsleeps].
Qed.

(** C2, as amended. With [retries >= 0], whatever its value: a response
    with status 401 or 403 makes the call raise the authentication
    error, and an inner envelope that reports the failure [X] makes it
    raise the tool error, either after one request and no sleep. The
    tool error carries [X] when [X] is not empty, and the text
    "Tool reported failure" when it is. *)
Theorem auth_and_tool_errors_not_retried (c : DatagenClient) (name : string)
    (parameters : value) (r : Response) :
  name <> "" ->
  (0 <= retries c)%Z ->
  let req := tool_request c name parameters in
  let final := execute_tool repr rt backend name parameters (start c) in
  backend 0%nat req = Return r ->
  (status_code r = 401%Z \/ status_code r = 403%Z ->
   fst final = Raise (Exn DatagenAuthError (VStr ("Auth failed: " ++ text r))) /\
   calls (snd final) = [req] /\ sleeps (snd final) = []) /\
  (forall X : string,
     (status_code r < 400)%Z ->
     json r = Return (tool_failure_envelope X) ->
     (X <> "" -> fst final = Raise (Exn DatagenToolError (VStr X))) /\
     (X = "" -> fst final = Raise (Exn DatagenToolError (VStr "Tool reported failure"))) /\
     calls (snd final) = [req] /\ sleeps (snd final) = []).
Proof.
  intros Hname Hn req final Hb.
  split.
  - intros Hs.
    apply (first_attempt_ends c name parameters _ Hname Hn).
    + unfold attempt_result. fold req. rewrite Hb. by apply read_response_auth.
    + by intros e [= <-].
  - intros X Hs Hj.
    destruct (first_attempt_ends c name parameters
                (Raise (Exn DatagenToolError
                          (py_or (VStr X) (VStr "Tool reported failure"))))
                Hname Hn) as (Hf & Hcalls & Hsleeps).
    + unfold attempt_result. fold req. rewrite Hb.
      by apply read_response_tool_failure.
    + by intros e [= <-].
    + fold final in Hf, Hcalls, Hsleeps. rewrite Hf.
      repeat split; [|by intros ->|exact Hcalls|exact Hsleeps].
      intros HX. destruct X; [done|reflexivity].
Qed.

(** C4. When the response has status 200 and the body
    [{"success": true, "data": {"success": true, "result": R}}], the call
    returns [R], whatever value [R] is, after one request. *)
Theorem execute_tool_returns_result (c : DatagenClient) (name : string)
    (parameters : value) (r : Response) (R : value) :
  name <> "" ->
  (0 <= retries c)%Z ->
  let req := tool_request c name parameters in
  let final := execute_tool repr rt backend name parameters (start c) in
  backend 0%nat req = Return r ->
  status_code r = 200%Z ->
  json r = Return (success_envelope R) ->
  fst final = Return R /\ calls (snd final) = [req].
Proof.
  intros Hname Hn req final Hb Hs Hj.
  destruct (first_attempt_ends c name parameters (Return R) Hname Hn)
    as (Hf & Hcalls & _).
  - unfold attempt_result. fold req. rewrite Hb.
    apply read_response_success; [lia|exact Hj].
  - intros e [=].
  - split; [exact Hf|exact Hcalls].
Qed.

(** C7. With the empty tool name the call raises [ValueError] and the
    state is the one it started in: no request is sent, whatever the
    parameters. *)
Theorem empty_tool_name_rejected (parameters : value) (w : World) :
  execute_tool repr rt backend "" parameters w =
    (Raise (Exn ValueError (VStr "tool_alias_name is required")), w) /\
  calls (snd (execute_tool repr rt backend "" parameters w)) = calls w.
Proof. split; reflexivity. Qed.

(** C9. A call, whether it returns or raises, leaves every attribute of
    the client as it was. *)
Theorem execute_tool_preserves_client (name : string) (parameters : value) (w : World) :
  let w' := snd (execute_tool repr rt backend name parameters w) in
  self w' = self w /\
  api_key (self w') = api_key (self w) /\
  base_url (self w') = base_url (self w) /\
  timeout (self w') = timeout (self w) /\
  retries (self w') = retries (self w) /\
  backoff_seconds (self w') = backoff_seconds (self w).
Proof.
  intros w'. unfold w'. rewrite execute_tool_self. done.
Qed.

(** A response that follows the wire contract makes the reading raise
    nothing but the three errors of the SDK. *)
Lemma read_response_conforming (r : Response) (e : exn) :
  conforming r ->
  read_response repr r = Raise e ->
  In (exn_class e) [DatagenAuthError; DatagenHttpError; DatagenToolError].
Proof.
  intros Hconf. unfold read_response.
  destruct (_ || _)%Z; [intros [= <-]; simpl; tauto|].
  destruct (_ >=? _)%Z eqn:Hs; [intros [= <-]; simpl; tauto|].
  destruct Hconf as (p & -> & Hdata); [lia|]. simpl.
  destruct (negb _); [intros [= <-]; simpl; tauto|].
  destruct (p !! "data") as [v|] eqn:Hv; simpl.
  - destruct (Hdata v eq_refl) as [d ->]. simpl.
    destruct (negb _); [intros [= <-]; simpl; tauto|discriminate].
  - destruct (negb _); [intros [= <-]; simpl; tauto|discriminate].
Qed.

(** C6, as amended. The authentication, HTTP and tool errors and the
    generic fallback derive from [DatagenError]; the error for an empty
    tool name is the built-in [ValueError], which does not. These are
    the errors that construction and a call raise themselves: when the
    backend delivers responses that follow the wire contract and the
    run-time system takes the sleeps, a call raises nothing else. *)
Theorem errors_and_base_class (environ : gmap string string) :
  (forall cls : py_class,
     In cls [DatagenAuthError; DatagenHttpError; DatagenToolError; DatagenError] ->
     issubclass cls DatagenError = true) /\
  issubclass ValueError DatagenError = false /\
  (forall (api_key : option string) (url : string) (timeout retries : Z)
          (backoff_seconds : Q) (e : exn),
     DatagenClient_init environ api_key url timeout retries backoff_seconds = Raise e ->
     exn_class e = DatagenAuthError /\
     issubclass (exn_class e) DatagenError = true) /\
  (forall (c : DatagenClient) (name : string) (parameters : value) (e : exn),
     delivers backend (tool_request c name parameters) ->
     sleeps_accepted rt c (Z.to_nat (retries c)) ->
     fst (execute_tool repr rt backend name parameters (start c)) = Raise e ->
     (name <> "" /\
      In (exn_class e) [DatagenAuthError; DatagenHttpError; DatagenToolError; DatagenError] /\
      issubclass (exn_class e) DatagenError = true) \/
     (name = "" /\ exn_class e = ValueError /\
      issubclass (exn_class e) DatagenError = false)).
Proof.
  split; [|split; [|split]].
  - simpl. intros cls [<- | [<- | [<- | [<- | []]]]]; reflexivity.
  - reflexivity.
  - intros api_key url timeout retries backoff_seconds e He.
    apply init_raises in He as ->. split; reflexivity.
  - intros c name parameters e Hdel Hacc Hrun.
    assert (Hsdk : forall cls : py_class,
      In cls [DatagenAuthError; DatagenHttpError; DatagenToolError] ->
      In cls [DatagenAuthError; DatagenHttpError; DatagenToolError; DatagenError] /\
      issubclass cls DatagenError = true).
    { simpl. intros cls [<- | [<- | [<- | []]]]; split; tauto || reflexivity. }
    destruct (decide (name = "")) as [-> | Hname].
    { right. simpl in Hrun. inversion Hrun. done. }
    left. split; [exact Hname|].
    destruct (decide (0 <= retries c)%Z) as [Hn | Hn].
    + destruct (execute_tool_exit repr rt backend c name parameters Hname Hn)
        as (k & Hk & _ & _ & _ & [Hend | (e0 & e' & _ & _ & Hlt & Hstep & _)]).
      * rewrite Hrun in Hend. symmetry in Hend. unfold attempt_result in Hend.
        destruct (Hdel (k - 1)%nat) as (r & Hb & Hconf).
        rewrite Hb in Hend. apply Hsdk. by apply (read_response_conforming r).
      * rewrite (backoff_step_accepted rt c (Z.to_nat (retries c)) (k - 1) Hacc)
          in Hstep by lia. discriminate.
    + rewrite (negative_retries_unknown_error repr rt backend name parameters (start c))
        in Hrun by (done || simpl; lia).
      inversion Hrun. split; [simpl; tauto|reflexivity].
Qed.

End Claims.

(** ** The sample run-time system *)

(** The sample run-time system takes the first [n <= 1024] sleeps of a
    schedule whose base is not negative and whose last sleep is within
    range. *)
Lemma cpython_accepts (c : DatagenClient) (n : nat) :
  (0 <= backoff_seconds c)%Q ->
  (n <= 1024)%nat ->
  (backoff_seconds c * inject_Z (2 ^ Z.of_nat (n - 1)) <= max_sleep)%Q ->
  sleeps_accepted cpython c n.
Proof.
  intros Hb Hn Hmax i Hi. split.
  - cbn [mul_error cpython].
    replace (2 ^ 1024 <=? 2 ^ Z.of_nat i)%Z with false; [reflexivity|].
    symmetry. apply Z.leb_gt. apply Z.pow_lt_mono_r; lia.
  - cbn [sleep_error cpython].
    assert (H0 : (0 <= inject_Z (2 ^ Z.of_nat i))%Q).
    { change 0%Q with (inject_Z 0). rewrite <- Zle_Qle. apply Z.pow_nonneg. lia. }
    assert (Hd : (0 <= backoff c i)%Q) by (by apply Qmult_le_0_compat).
    assert (Hle : (backoff c i <= max_sleep)%Q).
    { eapply Qle_trans; [|exact Hmax]. unfold backoff.
      apply Qmult_le_compat_nonneg; split; try done; [apply Qle_refl|].
      rewrite <- Zle_Qle. apply Z.pow_le_mono_r; lia. }
    assert (Hlo : (- max_sleep <= backoff c i)%Q).
    { eapply Qle_trans; [|exact Hd]. done. }
    apply Qle_bool_iff in Hd, Hle, Hlo. by rewrite Hlo, Hle, Hd.
Qed.

Lemma cpython_accepts_sample : sleeps_accepted cpython sample_client 3.
Proof. apply cpython_accepts; [done|lia|done]. Qed.

(** It refuses a negative sleep and a sleep that is too long, as it
    refuses the product from attempt 1024 on. *)
Lemma cpython_refuses :
  backoff_step cpython (- (1 # 2)) 0 =
    Raise (Exn ValueError (VStr "sleep length must be non-negative")) /\
  backoff_step cpython (inject_Z (2 ^ 1023)) 0 =
    Raise (Exn OverflowError (VStr "timestamp too large to convert to C _PyTime_t")) /\
  backoff_step cpython 0 1024 =
    Raise (Exn OverflowError (VStr "int too large to convert to float")).
Proof. repeat split; vm_compute; reflexivity. Qed.

(** ** The properties at the sample data *)



Lemma auth_and_tool_errors_not_retried_witness :
  fst (execute_tool sample_repr cpython unauthorized "test_tool" VNone
         (start sample_client)) =
    Raise (Exn DatagenAuthError (VStr "Auth failed: Unauthorized")) /\
  calls (snd (execute_tool sample_repr cpython unauthorized "test_tool" VNone
                (start sample_client))) =
    [tool_request sample_client "test_tool" VNone].
Proof.
  destruct (auth_and_tool_errors_not_retried sample_repr cpython unauthorized
              sample_client "test_tool" VNone
              {| status_code := 401; text := "Unauthorized"; json := undecodable |})
    as [Hauth _].
  - discriminate.
  - simpl. lia.
  - reflexivity.
  - destruct Hauth as (Hf & Hc & _); [left; reflexivity|].
    split; [exact Hf|exact Hc].
Defined.

Lemma execute_tool_returns_result_witness :
  fst (execute_tool sample_repr cpython (failing_then_ok 0 sample_result) "test_tool"
         (VDict (<["param" := VStr "value"]> ∅))
         (start sample_client)) = Return sample_result.
Proof.
  apply (execute_tool_returns_result sample_repr cpython (failing_then_ok 0 sample_result)
           sample_client "test_tool" (VDict (<["param" := VStr "value"]> ∅))
           (ok_response sample_result)).
  - discriminate.
  - simpl. lia.
  - reflexivity.
  - reflexivity.
  - reflexivity.
Defined.

Lemma errors_and_base_class_witness :
  ("test_tool" <> "" /\
   In (exn_class (Exn DatagenToolError (VStr "boom")))
      [DatagenAuthError; DatagenHttpError; DatagenToolError; DatagenError] /\
   issubclass (exn_class (Exn DatagenToolError (VStr "boom"))) DatagenError = true) \/
  ("test_tool" = "" /\ exn_class (Exn DatagenToolError (VStr "boom")) = ValueError /\
   issubclass (exn_class (Exn DatagenToolError (VStr "boom"))) DatagenError = false).
Proof.
  apply (proj2 (proj2 (proj2 (errors_and_base_class sample_repr cpython
                                (tool_failing "boom") ∅)))
           sample_client "test_tool" VNone).
  - intros j. eexists. split; [reflexivity|].
    intros _. eexists. split; [reflexivity|].
    intros v Hv. vm_compute in Hv. inversion Hv. eauto.
  - exact cpython_accepts_sample.
  - vm_compute. reflexivity.
Defined.

Lemma base_url_stripped_witness :
  DatagenClient_init sample_environ None "http://localhost:3001/" 30 0 (1 # 2) =
    Return env_client /\
  ~ ends_with_slash (base_url env_client).
Proof.
  split; [reflexivity|].
  apply (base_url_stripped sample_environ None "http://localhost:3001/" 30%Z 0%Z
           (1 # 2)%Q env_client).
  reflexivity.
Defined.

Lemma empty_api_key_falls_back_witness :
  DatagenClient_init sample_environ (Some "") "http://localhost:3001/" 30 0 (1 # 2) =
    Return env_client.
Proof.
  apply (proj1 (proj2 (empty_api_key_falls_back sample_environ
                         "http://localhost:3001/" 30%Z 0%Z (1 # 2)%Q))
           "env_test_key").
  - reflexivity.
  - discriminate.
Defined.

(** An endpoint given with two trailing "/" is stored without either:
    two characters are removed, not one. *)
Lemma base_url_double_slash_counterexample :
  exists c : DatagenClient,
    DatagenClient_init sample_environ None "http://h:1//" 30 0 (1 # 2) = Return c /\
    base_url c = "http://h:1" /\
    base_url c <> "http://h:1/" /\
    (String.length (base_url c) + 2 = String.length "http://h:1//")%nat.
Proof.
  eexists. split; [reflexivity|]. simpl. repeat split; done.
Qed.

(** A tool that reports the failure [""]: the error raised does not
    carry the empty text but the generic one. *)
Lemma tool_error_empty_message_counterexample :
  fst (execute_tool sample_repr cpython (tool_failing "") "test_tool" VNone
         (start sample_client)) =
    Raise (Exn DatagenToolError (VStr "Tool reported failure")) /\
  fst (execute_tool sample_repr cpython (tool_failing "") "test_tool" VNone
         (start sample_client)) <>
    Raise (Exn DatagenToolError (VStr "")).
Proof.
  assert (H : fst (execute_tool sample_repr cpython (tool_failing "") "test_tool" VNone
                     (start sample_client)) =
              Raise (Exn DatagenToolError (VStr "Tool reported failure")))
    by (vm_compute; reflexivity).
  split; [exact H|]. rewrite H. discriminate.
Qed.

(** The error for an empty tool name is a [ValueError], which does not
    derive from [DatagenError]. *)
Lemma value_error_not_datagen_counterexample :
  exists e : exn,
    fst (execute_tool sample_repr cpython always_failing "" VNone (start sample_client)) =
      Raise e /\
    exn_class e = ValueError /\
    issubclass (exn_class e) DatagenError = false.
Proof. eexists. repeat split. Qed.

(** C8, the code at the failing input. With [retries = 0] and a backend
    no request reaches, the call re-raises the connection error of the
    HTTP library as it is, after its one request: an exception that is
    none of the typed errors and does not derive from [DatagenError],
    although the docstring of [DatagenHttpError] counts network errors
    among the HTTP-level errors. With [retries = 3] it does so after
    four requests. *)
Theorem transport_failure_raised_raw :
  (0 <= retries env_client)%Z /\
  execute_tool sample_repr cpython unreachable "test_tool" VNone (start env_client) =
    (Raise connection_refused,
     posted (start env_client) (tool_request env_client "test_tool" VNone)) /\
  ~ In (exn_class connection_refused) typed_classes /\
  issubclass (exn_class connection_refused) DatagenHttpError = false /\
  issubclass (exn_class connection_refused) DatagenError = false /\
  fst (execute_tool sample_repr cpython unreachable "test_tool" VNone
         (start sample_client)) = Raise connection_refused /\
  length (calls (snd (execute_tool sample_repr cpython unreachable "test_tool" VNone
                        (start sample_client)))) = 4%nat.
Proof.
  split; [simpl; lia|].
  split; [vm_compute; reflexivity|].
  split; [simpl; intros [H | [H | [H | [H | []]]]]; discriminate|].
  split; [reflexivity|]. split; [reflexivity|].
  split; vm_compute; reflexivity.
Qed.

(** ** Further properties of the call *)

Section Failures.

Variable repr : value -> string.
Variable rt : Runtime.
Variable backend : nat -> Request -> outcome Response.

(** When every attempt raises something the [except] clause catches and
    the run-time system takes the sleeps, the call ends with what the
    last attempt raised, after [N + 1] requests and [N] sleeps. *)
Lemma all_attempts_fail (c : DatagenClient) (name : string) (parameters : value) :
  name <> "" ->
  (0 <= retries c)%Z ->
  let req := tool_request c name parameters in
  let N := Z.to_nat (retries c) in
  let final := execute_tool repr rt backend name parameters (start c) in
  sleeps_accepted rt c N ->
  (forall j : nat, (j <= N)%nat ->
     exists e, attempt_result repr backend j req = Raise e /\
               caught e [RequestException; DatagenHttpError] = true) ->
  exists e,
    attempt_result repr backend N req = Raise e /\
    fst final = Raise e /\
    length (calls (snd final)) = (N + 1)%nat /\
    length (sleeps (snd final)) = N.
Proof.
  intros Hname Hn req N final Hacc Hfail.
  destruct (Hfail N ltac:(lia)) as (e & Hres & _).
  exists e. split; [exact Hres|].
  destruct (execute_tool_ends_at repr rt backend c name parameters N _ Hname
              ltac:(lia) Hacc ltac:(intros; apply Hfail; lia) Hres)
    as (Hf & _ & Hc & _ & Hl); [intros; right; lia|].
  split; [exact Hf|]. split; [exact Hc|exact Hl].
Qed.

(** X1. Every status from 400 on, other than 401 and 403, is retried:
    when all [N + 1] responses carry such a status (they may differ) and
    the run-time system takes the sleeps, [N + 1] requests are made and
    the HTTP error names the status and the body of the last
    response. *)
Theorem http_statuses_retried (c : DatagenClient) (name : string) (parameters : value) :
  name <> "" ->
  (0 <= retries c)%Z ->
  let req := tool_request c name parameters in
  let N := Z.to_nat (retries c) in
  let final := execute_tool repr rt backend name parameters (start c) in
  sleeps_accepted rt c N ->
  (forall j : nat, (j <= N)%nat ->
     exists r, backend j req = Return r /\
               (400 <= status_code r)%Z /\
               status_code r <> 401%Z /\ status_code r <> 403%Z) ->
  exists r,
    backend N req = Return r /\
    fst final = Raise (Exn DatagenHttpError
                         (VStr ("HTTP " ++ str_of_int (status_code r) ++ ": " ++ text r))) /\
    length (calls (snd final)) = (N + 1)%nat /\
    length (sleeps (snd final)) = N.
Proof.
  intros Hname Hn req N final Hacc Hbad.
  assert (Hres : forall j : nat, (j <= N)%nat ->
    exists r, backend j req = Return r /\
      attempt_result repr backend j req =
        Raise (Exn DatagenHttpError
                 (VStr ("HTTP " ++ str_of_int (status_code r) ++ ": " ++ text r)))).
  { intros j Hj. destruct (Hbad j Hj) as (r & Hb & H400 & H401 & H403).
    exists r. split; [exact Hb|]. unfold attempt_result. rewrite Hb.
    by apply read_response_http. }
  destruct (all_attempts_fail c name parameters Hname Hn Hacc) as (e & He & Hrun).
  { intros j Hj. destruct (Hres j Hj) as (r & _ & Hr).
    eexists. split; [exact Hr|reflexivity]. }
  destruct (Hres N ltac:(lia)) as (r & Hb & Hr).
  exists r. split; [exact Hb|].
  fold req N in He. rewrite Hr in He. inversion He. subst e. exact Hrun.
Qed.

(** X2. A response below 400 whose outer envelope does not report
    success (the flag is false, missing, or any false value) counts as an
    HTTP error and is retried like one: when all [N + 1] responses are
    such and the run-time system takes the sleeps, [N + 1] requests are
    made and the error shows the last payload. *)
Theorem outer_failure_retried (c : DatagenClient) (name : string) (parameters : value) :
  name <> "" ->
  (0 <= retries c)%Z ->
  let req := tool_request c name parameters in
  let N := Z.to_nat (retries c) in
  let final := execute_tool repr rt backend name parameters (start c) in
  sleeps_accepted rt c N ->
  (forall j : nat, (j <= N)%nat ->
     exists r p, backend j req = Return r /\
                 (status_code r < 400)%Z /\
                 json r = Return (VDict p) /\
                 truthy (default (VBool false) (p !! "success")) = false) ->
  exists r p,
    backend N req = Return r /\ json r = Return (VDict p) /\
    fst final = Raise (Exn DatagenHttpError
                         (VStr ("Unexpected response: " ++ repr (VDict p)))) /\
    length (calls (snd final)) = (N + 1)%nat /\
    length (sleeps (snd final)) = N.
Proof.
  intros Hname Hn req N final Hacc Hbad.
  assert (Hres : forall j : nat, (j <= N)%nat ->
    exists r p, backend j req = Return r /\ json r = Return (VDict p) /\
      attempt_result repr backend j req =
        Raise (Exn DatagenHttpError (VStr ("Unexpected response: " ++ repr (VDict p))))).
  { intros j Hj. destruct (Hbad j Hj) as (r & p & Hb & Hs & Hjs & Hok).
    exists r, p. split; [exact Hb|]. split; [exact Hjs|].
    unfold attempt_result. rewrite Hb. by apply read_response_rejected. }
  destruct (all_attempts_fail c name parameters Hname Hn Hacc) as (e & He & Hrun).
  { intros j Hj. destruct (Hres j Hj) as (r & p & _ & _ & Hr).
    eexists. split; [exact Hr|reflexivity]. }
  destruct (Hres N ltac:(lia)) as (r & p & Hb & Hjs & Hr).
  exists r, p. split; [exact Hb|]. split; [exact Hjs|].
  fold req N in He. rewrite Hr in He. inversion He. subst e. exact Hrun.
Qed.

(** X3. A failure of the transport, an exception of [requests.post] that
    is a [RequestException], is retried like an HTTP error: when the
    first [k <= N] requests fail so, the run-time system takes the
    sleeps, and the next request is answered by a success, the call
    returns that result after [k + 1] requests and [k] sleeps. *)
Theorem transport_failures_retried (c : DatagenClient) (name : string)
    (parameters : value) (k : nat) (r : Response) (R : value) :
  name <> "" ->
  (0 <= retries c)%Z ->
  let req := tool_request c name parameters in
  let final := execute_tool repr rt backend name parameters (start c) in
  (k <= Z.to_nat (retries c))%nat ->
  sleeps_accepted rt c k ->
  (forall j : nat, (j < k)%nat ->
     exists e, backend j req = Raise e /\ isinstance e RequestException = true) ->
  backend k req = Return r ->
  status_code r = 200%Z ->
  json r = Return (success_envelope R) ->
  fst final = Return R /\
  length (calls (snd final)) = (k + 1)%nat /\
  length (sleeps (snd final)) = k.
Proof.
  intros Hname Hn req final Hk Hacc Hbad Hb Hs Hj.
  destruct (execute_tool_ends_at repr rt backend c name parameters k (Return R) Hname
              ltac:(lia) Hacc) as (Hf & _ & Hc & _ & Hl).
  - intros j Hlt. destruct (Hbad j Hlt) as (e & Hbj & Hi).
    exists e. split; [unfold attempt_result; fold req; by rewrite Hbj|].
    unfold caught. simpl. by rewrite Hi.
  - unfold attempt_result. fold req. rewrite Hb.
    apply read_response_success; [lia|exact Hj].
  - discriminate.
  - split; [exact Hf|]. split; [exact Hc|exact Hl].
Qed.

(** X4. The inner envelope reports failure whenever its "success" is
    false, missing or any false value, also when "data" itself is
    missing: the tool error is raised after one request and never
    retried. Its argument is the "error" field when that is a true
    value, of whatever type, and the text "Tool reported failure" when
    the field is missing, null or empty. *)
Theorem tool_failure_not_retried (c : DatagenClient) (name : string)
    (parameters : value) (r : Response) (p d : gmap string value) :
  name <> "" ->
  (0 <= retries c)%Z ->
  let req := tool_request c name parameters in
  let final := execute_tool repr rt backend name parameters (start c) in
  backend 0%nat req = Return r ->
  (status_code r < 400)%Z ->
  json r = Return (VDict p) ->
  truthy (default (VBool false) (p !! "success")) = true ->
  default (VDict ∅) (p !! "data") = VDict d ->
  truthy (default (VBool false) (d !! "success")) = false ->
  (forall v : value, d !! "error" = Some v -> truthy v = true ->
     fst final = Raise (Exn DatagenToolError v)) /\
  (truthy (default VNone (d !! "error")) = false ->
     fst final = Raise (Exn DatagenToolError (VStr "Tool reported failure"))) /\
  calls (snd final) = [req] /\ sleeps (snd final) = [].
Proof.
  intros Hname Hn req final Hb Hs Hj Hok Hdata Hfail.
  destruct (first_attempt_ends repr rt backend c name parameters
              (Raise (Exn DatagenToolError
                 (py_or (default VNone (d !! "error")) (VStr "Tool reported failure"))))
              Hname Hn) as (Hf & Hcalls & Hsleeps).
  { unfold attempt_result. fold req. rewrite Hb.
    etrans; [by apply (read_response_inner repr r p d)|]. by rewrite Hfail. }
  { by intros e [= <-]. }
  fold final in Hf, Hcalls, Hsleeps. rewrite Hf.
  split; [|split; [|split; [exact Hcalls|exact Hsleeps]]].
  - intros v Hv Ht. unfold py_or. rewrite Hv. simpl. by rewrite Ht.
  - intros Ht. unfold py_or. by rewrite Ht.
Qed.

(** X5. The two "success" flags are tested for truth, not compared with
    [True]: any true value passes. The call then returns the "result"
    field of the inner envelope, and [None] when the field is missing,
    after one request. *)
Theorem success_flags_truthy (c : DatagenClient) (name : string)
    (parameters : value) (r : Response) (p d : gmap string value) :
  name <> "" ->
  (0 <= retries c)%Z ->
  let req := tool_request c name parameters in
  let final := execute_tool repr rt backend name parameters (start c) in
  backend 0%nat req = Return r ->
  (status_code r < 400)%Z ->
  json r = Return (VDict p) ->
  truthy (default (VBool false) (p !! "success")) = true ->
  default (VDict ∅) (p !! "data") = VDict d ->
  truthy (default (VBool false) (d !! "success")) = true ->
  fst final = Return (default VNone (d !! "result")) /\
  (d !! "result" = None -> fst final = Return VNone) /\
  calls (snd final) = [req] /\ sleeps (snd final) = [].
Proof.
  intros Hname Hn req final Hb Hs Hj Hok Hdata Hin.
  destruct (first_attempt_ends repr rt backend c name parameters
              (Return (default VNone (d !! "result"))) Hname Hn)
    as (Hf & Hcalls & Hsleeps).
  { unfold attempt_result. fold req. rewrite Hb.
    etrans; [by apply (read_response_inner repr r p d)|]. by rewrite Hin. }
  { intros e [=]. }
  fold final in Hf, Hcalls, Hsleeps.
  split; [exact Hf|]. split; [|split; [exact Hcalls|exact Hsleeps]].
  intros Hnone. rewrite Hf, Hnone. reflexivity.
Qed.

(** X6. A body that decodes to something other than an object, or an
    outer envelope whose "data" is not an object, makes [.get] fail: the
    call raises [AttributeError], naming the type, after one request; it
    is not retried and is not an error of the SDK. *)
Theorem malformed_payload_not_retried (c : DatagenClient) (name : string)
    (parameters : value) (r : Response) :
  name <> "" ->
  (0 <= retries c)%Z ->
  let req := tool_request c name parameters in
  let final := execute_tool repr rt backend name parameters (start c) in
  let no_get := fun v : value =>
    Exn AttributeError (VStr ("'" ++ type_name v ++ "' object has no attribute 'get'")) in
  backend 0%nat req = Return r ->
  (status_code r < 400)%Z ->
  (forall v : value, json r = Return v -> (forall d, v <> VDict d) ->
     fst final = Raise (no_get v) /\
     calls (snd final) = [req] /\ sleeps (snd final) = []) /\
  (forall (p : gmap string value) (v : value),
     json r = Return (VDict p) ->
     truthy (default (VBool false) (p !! "success")) = true ->
     p !! "data" = Some v -> (forall d, v <> VDict d) ->
     fst final = Raise (no_get v) /\
     calls (snd final) = [req] /\ sleeps (snd final) = []).
Proof.
  intros Hname Hn req final no_get Hb Hs.
  assert (Hstatus : forall o,
    (payload ← json r;
     ok ← py_get payload "success" (VBool false);
     if negb (truthy ok) then
       Raise (Exn DatagenHttpError (VStr ("Unexpected response: " ++ repr payload)))
     else
       tool_payload ← py_get payload "data" (VDict ∅);
       tool_ok ← py_get tool_payload "success" (VBool false);
       if negb (truthy tool_ok) then
         err ← py_get tool_payload "error" VNone;
         Raise (Exn DatagenToolError (py_or err (VStr "Tool reported failure")))
       else py_get tool_payload "result" VNone) = o ->
    attempt_result repr backend 0 req = o).
  { intros o <-. unfold attempt_result. rewrite Hb. simpl. unfold read_response.
    replace (status_code r =? 401)%Z with false by lia.
    replace (status_code r =? 403)%Z with false by lia.
    replace (status_code r >=? 400)%Z with false by lia. reflexivity. }
  split.
  - intros v Hj Hv.
    apply (first_attempt_ends repr rt backend c name parameters (Raise (no_get v)) Hname Hn).
    + apply Hstatus. rewrite Hj. simpl.
      destruct v; try reflexivity. by destruct (Hv d).
    + by intros e [= <-].
  - intros p v Hj Hok Hdata Hv.
    apply (first_attempt_ends repr rt backend c name parameters (Raise (no_get v)) Hname Hn).
    + apply Hstatus. rewrite Hj. simpl. rewrite Hok. simpl. rewrite Hdata. simpl.
      destruct v; try reflexivity. by destruct (Hv d).
    + by intros e [= <-].
Qed.

(** X7. When the body of a response below 400 does not decode, the
    attempt raises what [resp.json()] raises, as it is. When that is a
    [RequestException], as the decoding error of requests 2.27 and later
    is, the attempt is retried like a failure of the transport: if every
    attempt ends so and the run-time system takes the sleeps, [N + 1]
    requests are made and the last decoding error is raised; if a
    success follows [k <= N] of them, its result is returned. When it is
    neither a [RequestException] nor the HTTP error, as the decoding
    error of earlier versions, the call raises it after that one
    request. *)
Theorem undecodable_body (c : DatagenClient) (name : string) (parameters : value) :
  name <> "" ->
  (0 <= retries c)%Z ->
  let req := tool_request c name parameters in
  let N := Z.to_nat (retries c) in
  let final := execute_tool repr rt backend name parameters (start c) in
  let undecodable_at := fun (j : nat) (e : exn) =>
    exists r, backend j req = Return r /\ (status_code r < 400)%Z /\ json r = Raise e in
  (forall (j : nat) (e : exn),
     undecodable_at j e -> attempt_result repr backend j req = Raise e) /\
  (sleeps_accepted rt c N ->
   (forall j : nat, (j <= N)%nat ->
      exists e, undecodable_at j e /\ isinstance e RequestException = true) ->
   exists e, undecodable_at N e /\
     fst final = Raise e /\
     length (calls (snd final)) = (N + 1)%nat /\
     length (sleeps (snd final)) = N) /\
  (forall (k : nat) (r : Response) (R : value),
     (k <= N)%nat ->
     sleeps_accepted rt c k ->
     (forall j : nat, (j < k)%nat ->
        exists e, undecodable_at j e /\ isinstance e RequestException = true) ->
     backend k req = Return r ->
     status_code r = 200%Z ->
     json r = Return (success_envelope R) ->
     fst final = Return R /\
     length (calls (snd final)) = (k + 1)%nat) /\
  (forall e : exn,
     undecodable_at 0%nat e ->
     isinstance e RequestException = false ->
     isinstance e DatagenHttpError = false ->
     fst final = Raise e /\ calls (snd final) = [req] /\ sleeps (snd final) = []).
Proof.
  intros Hname Hn req N final undecodable_at.
  assert (Hres : forall (j : nat) (e : exn),
    undecodable_at j e -> attempt_result repr backend j req = Raise e).
  { intros j e (r & Hb & Hs & Hj). unfold attempt_result. rewrite Hb.
    by apply read_response_undecodable. }
  assert (Hcaught : forall k : nat,
    (forall j : nat, (j < k)%nat ->
       exists e, undecodable_at j e /\ isinstance e RequestException = true) ->
    forall j : nat, (j < k)%nat ->
      exists e, attempt_result repr backend j req = Raise e /\
                caught e [RequestException; DatagenHttpError] = true).
  { intros k H j Hj. destruct (H j Hj) as (e & Hu & Hi).
    exists e. split; [by apply Hres|]. unfold caught. simpl. by rewrite Hi. }
  split; [exact Hres|]. split; [|split].
  - intros Hacc Hall.
    destruct (Hall N ltac:(lia)) as (e & Hu & Hi).
    exists e. split; [exact Hu|].
    destruct (execute_tool_ends_at repr rt backend c name parameters N (Raise e) Hname
                ltac:(lia) Hacc) as (Hf & _ & Hc & _ & Hl).
    + apply Hcaught. intros j Hj. apply Hall. lia.
    + by apply Hres.
    + intros e' _. right. lia.
    + split; [exact Hf|]. split; [exact Hc|exact Hl].
  - intros k r R Hk Hacc Hall Hb Hs Hj.
    destruct (execute_tool_ends_at repr rt backend c name parameters k (Return R) Hname
                ltac:(lia) Hacc (Hcaught k Hall)) as (Hf & _ & Hc & _).
    + unfold attempt_result. fold req. rewrite Hb.
      apply read_response_success; [lia|exact Hj].
    + discriminate.
    + split; [exact Hf|exact Hc].
  - intros e Hu Hr Hh.
    apply (first_attempt_ends repr rt backend c name parameters (Raise e) Hname Hn).
    + by apply Hres.
    + intros e' [= <-]. unfold caught. simpl. by rewrite Hr, Hh.
Qed.

(** X16. A sleep the run-time system refuses ends the call. When the
    first [k] attempts fail with something that is caught, each followed
    by a sleep that is taken, attempt [k] fails so too and is not the
    last, and the product or [time.sleep] raises for the sleep after it,
    the call raises that exception after [k + 1] requests and [k]
    sleeps: no further request is sent. *)
Theorem refused_sleep_ends_call (c : DatagenClient) (name : string)
    (parameters : value) (k : nat) (e : exn) :
  name <> "" ->
  (Z.of_nat k < retries c)%Z ->
  let req := tool_request c name parameters in
  let final := execute_tool repr rt backend name parameters (start c) in
  sleeps_accepted rt c k ->
  (forall j : nat, (j <= k)%nat ->
     exists e', attempt_result repr backend j req = Raise e' /\
                caught e' [RequestException; DatagenHttpError] = true) ->
  mul_error rt (backoff_seconds c) (2 ^ Z.of_nat k) = Some e \/
  (mul_error rt (backoff_seconds c) (2 ^ Z.of_nat k) = None /\
   sleep_error rt (backoff c k) = Some e) ->
  fst final = Raise e /\
  calls (snd final) = replicate (k + 1) req /\
  sleeps (snd final) = map (backoff c) (seq 0 k).
Proof.
  intros Hname Hk req final Hacc Hfail Hrefuse.
  assert (Hstep : backoff_step rt (backoff_seconds c) (Z.of_nat k) = Raise e).
  { unfold backoff_step, py_mul. destruct Hrefuse as [-> | [-> Hs]]; [reflexivity|].
    simpl. fold (backoff c k). by rewrite Hs. }
  unfold final. rewrite execute_tool_run by done. simpl self. fold req.
  rewrite (range_split (retries c) k) by lia.
  destruct (attempts_streak repr rt backend (req_url req) (req_json req) (req_headers req)
              k 0 (Z.of_nat k :: map Z.of_nat (seq (S k) (Z.to_nat (retries c) - k)))
              None (start c)) as [last' Hrun]; [reflexivity|exact Hacc| |rewrite Hrun].
  { intros j Hj. split; [simpl; lia|]. apply Hfail. lia. }
  rewrite attempts_cons.
  replace (length (calls (after_failures (start c) _ 0 k))) with k
    by (simpl; rewrite length_replicate; reflexivity).
  change (request_of _ _ _ (self _)) with req.
  destruct (Hfail k ltac:(lia)) as (e' & -> & ->).
  replace (_ <? _)%Z with true by (simpl; lia).
  cbn [self after_failures start]. rewrite Hstep.
  cbn [fst snd posted after_failures calls sleeps start self].
  rewrite !app_nil_l. split; [reflexivity|].
  split; [by rewrite Nat.add_1_r, replicate_S_end|reflexivity].
Qed.

End Failures.

(** ** What every call does, whatever the backend *)

Section Shape.

Variable repr : value -> string.
Variable rt : Runtime.
Variable backend : nat -> Request -> outcome Response.

(** X8. Every request of a call is the same request: a POST to the
    stored endpoint followed by "/api/tools/execute", with the
    credential in the "X-API-Key" header, the JSON content type, the
    client's timeout, and a body that holds the tool name and the
    parameters, the empty object standing in for parameters that are
    omitted or empty. Between one and [retries + 1] of them are sent. *)
Theorem requests_identical (c : DatagenClient) (name : string) (parameters : value) :
  name <> "" ->
  (0 <= retries c)%Z ->
  let final := execute_tool repr rt backend name parameters (start c) in
  exists (k : nat) (req : Request) (body : gmap string value),
    (1 <= k <= Z.to_nat (retries c) + 1)%nat /\
    calls (snd final) = replicate k req /\
    req_url req = base_url c ++ "/api/tools/execute" /\
    req_headers req !! "X-API-Key" = Some (api_key c) /\
    req_headers req !! "Content-Type" = Some "application/json" /\
    req_timeout req = timeout c /\
    req_json req = VDict body /\
    body !! "tool_alias_name" = Some (VStr name) /\
    body !! "parameters" =
      Some (if truthy parameters then parameters else VDict ∅).
Proof.
  intros Hname Hn final.
  destruct (execute_tool_exit repr rt backend c name parameters Hname Hn)
    as (k & Hk & Hcalls & _).
  exists k, (tool_request c name parameters),
    (<["tool_alias_name" := VStr name]>
       (<["parameters" := py_or parameters (VDict ∅)]> ∅)).
  split; [exact Hk|]. split; [exact Hcalls|].
  unfold tool_request, request_of. cbn [req_url req_headers req_timeout req_json].
  split; [reflexivity|]. split; [apply lookup_insert_eq|].
  split; [by rewrite lookup_insert_ne, lookup_insert_eq|].
  split; [reflexivity|]. split; [reflexivity|].
  split; [apply lookup_insert_eq|].
  by rewrite lookup_insert_ne, lookup_insert_eq.
Qed.

(** X9. Whatever the backend does, when the run-time system takes the
    sleeps of the schedule, a call that made [k] requests slept [k - 1]
    times, once between two requests, and the sleep after request [i]
    (counted from 0) lasted [backoff_seconds * 2^i]. *)
Theorem sleeps_between_requests (c : DatagenClient) (name : string) (parameters : value) :
  name <> "" ->
  (0 <= retries c)%Z ->
  sleeps_accepted rt c (Z.to_nat (retries c)) ->
  let final := execute_tool repr rt backend name parameters (start c) in
  (1 <= length (calls (snd final)))%nat /\
  length (sleeps (snd final)) = (length (calls (snd final)) - 1)%nat /\
  sleeps (snd final) =
    map (fun i : nat => (backoff_seconds c * inject_Z (2 ^ Z.of_nat i))%Q)
        (seq 0 (length (calls (snd final)) - 1)).
Proof.
  intros Hname Hn Hacc final.
  destruct (execute_tool_exit repr rt backend c name parameters Hname Hn)
    as (k & Hk & Hcalls & Hsleeps & _).
  fold final in Hcalls, Hsleeps.
  rewrite Hcalls, Hsleeps, length_replicate, length_map, length_seq.
  split; [lia|]. split; reflexivity.
Qed.

(** The schedule adds up to [backoff_seconds * (2^n - 1)]. *)
Lemma total_sleep_schedule (c : DatagenClient) (n : nat) :
  (total_sleep (map (backoff c) (seq 0 n)) ==
   backoff_seconds c * (inject_Z (2 ^ Z.of_nat n) - 1))%Q.
Proof.
  induction n as [|n IH].
  - change (0 == backoff_seconds c * (1 - 1))%Q. ring.
  - rewrite seq_S, map_app. simpl.
    assert (Happ : forall l x, (total_sleep (l ++ [x]) == total_sleep l + x)%Q).
    { clear. induction l as [|y l IH]; intros x; simpl; [ring|]. rewrite IH. ring. }
    rewrite Happ, IH. unfold backoff.
    replace (2 ^ Z.of_nat (S n))%Z with (2 * 2 ^ Z.of_nat n)%Z
      by (rewrite Nat2Z.inj_succ, Z.pow_succ_r by lia; reflexivity).
    rewrite inject_Z_mult. ring.
Qed.

(** X10. With a backoff base that is not negative, a call never sleeps
    longer in all than [backoff_seconds * (2^retries - 1)], whatever the
    backend and the run-time system do, and sleeps exactly that long
    when every attempt fails with something that is retried and the
    run-time system takes the sleeps. *)
Theorem total_sleep_bound (c : DatagenClient) (name : string) (parameters : value) :
  name <> "" ->
  (0 <= retries c)%Z ->
  (0 <= backoff_seconds c)%Q ->
  let req := tool_request c name parameters in
  let N := Z.to_nat (retries c) in
  let final := execute_tool repr rt backend name parameters (start c) in
  (total_sleep (sleeps (snd final)) <=
   backoff_seconds c * (inject_Z (2 ^ retries c) - 1))%Q /\
  (sleeps_accepted rt c N ->
   (forall j : nat, (j <= N)%nat ->
      exists e, attempt_result repr backend j req = Raise e /\
                caught e [RequestException; DatagenHttpError] = true) ->
   (total_sleep (sleeps (snd final)) ==
    backoff_seconds c * (inject_Z (2 ^ retries c) - 1))%Q).
Proof.
  intros Hname Hn Hb req N final. split.
  - destruct (execute_tool_exit repr rt backend c name parameters Hname Hn)
      as (k & Hk & _ & Hsleeps & _).
    fold final in Hsleeps. rewrite Hsleeps, total_sleep_schedule.
    apply Qmult_le_compat_nonneg.
    + split; [exact Hb|apply Qle_refl].
    + split.
      * apply (proj1 (Qle_minus_iff 1 _)).
        change 1%Q with (inject_Z (2 ^ 0)). rewrite <- Zle_Qle.
        apply Z.pow_le_mono_r; lia.
      * apply Qplus_le_l. rewrite <- Zle_Qle.
        apply Z.pow_le_mono_r; lia.
  - intros Hacc Hfail.
    destruct (Hfail N ltac:(lia)) as (e & Hres & _).
    destruct (execute_tool_ends_at repr rt backend c name parameters N _ Hname
                ltac:(lia) Hacc ltac:(intros; apply Hfail; lia) Hres)
      as (_ & _ & _ & Hsleeps & _); [intros; right; lia|].
    fold final in Hsleeps. rewrite Hsleeps, total_sleep_schedule.
    replace (Z.of_nat N) with (retries c) by lia. reflexivity.
Qed.


End Shape.

(** ** Calls in sequence, and calls on a constructed client *)

Section Sequence.

Variable repr : value -> string.
Variable rt : Runtime.
Variable backend : nat -> Request -> outcome Response.

(** X11. The client keeps nothing from one call to the next: against a
    backend that answers a request the same way whenever it is sent, a
    call's outcome does not depend on the calls made before it, and the
    same call made again right after yields the same outcome. *)
Theorem repeated_call_same_outcome (name : string) (parameters : value) :
  stateless backend ->
  (forall w1 w2 : World,
     self w1 = self w2 ->
     fst (execute_tool repr rt backend name parameters w1) =
     fst (execute_tool repr rt backend name parameters w2)) /\
  (forall w : World,
     fst (execute_tool repr rt backend name parameters
            (snd (execute_tool repr rt backend name parameters w))) =
     fst (execute_tool repr rt backend name parameters w)).
Proof.
  intros Hst.
  assert (H : forall w1 w2 : World,
    self w1 = self w2 ->
    fst (execute_tool repr rt backend name parameters w1) =
    fst (execute_tool repr rt backend name parameters w2)).
  { intros w1 w2 Hself. destruct (decide (name = "")) as [-> | Hname]; [reflexivity|].
    rewrite !execute_tool_run by done. rewrite Hself.
    by apply attempts_stateless. }
  split; [exact H|]. intros w. apply H. apply execute_tool_self.
Qed.

(** X12. The constructor takes any retry count. On a client built with
    a negative one, a call with a tool name sends no request and does not
    sleep: it raises the generic [DatagenError] "Unknown error during
    tool execution". *)
Theorem negative_retries_no_request (environ : gmap string string)
    (key : option string) (url : string) (t n : Z) (b : Q) (c : DatagenClient)
    (name : string) (parameters : value) :
  DatagenClient_init environ key url t n b = Return c ->
  (n < 0)%Z ->
  name <> "" ->
  retries c = n /\
  execute_tool repr rt backend name parameters (start c) =
    (Raise (Exn DatagenError (VStr "Unknown error during tool execution")), start c).
Proof.
  intros Hinit Hn Hname.
  assert (Hr : retries c = n).
  { unfold DatagenClient_init in Hinit.
    destruct (py_or _ _) as [k|]; [|discriminate].
    destruct (negb _); [discriminate|]. by inversion Hinit. }
  split; [exact Hr|].
  apply negative_retries_unknown_error; [exact Hname|simpl; lia].
Qed.

End Sequence.

Section Credential.

Variable environ : gmap string string.

(** X13. How the credential is resolved. A credential given and not
    empty is the one stored, whatever the environment holds. A client
    that was constructed has a credential that is not empty, and its
    timeout, retry count and backoff base are the arguments as given.
    Construction fails exactly when neither the argument nor the
    environment gives a non-empty credential, and it then raises the
    authentication error whatever the other arguments are. *)
Theorem credential_resolution (key : option string) (url : string)
    (t n : Z) (b : Q) :
  (forall k : string, key = Some k -> k <> "" ->
     DatagenClient_init environ key url t n b =
       Return {| api_key := k; base_url := rstrip "/" url; timeout := t;
                 retries := n; backoff_seconds := b |}) /\
  (forall c : DatagenClient,
     DatagenClient_init environ key url t n b = Return c ->
     api_key c <> "" /\
     (key = Some (api_key c) \/ environ !! "DATAGEN_API_KEY" = Some (api_key c)) /\
     timeout c = t /\ retries c = n /\ backoff_seconds c = b) /\
  ((key = None \/ key = Some "") /\
   (environ !! "DATAGEN_API_KEY" = None \/ environ !! "DATAGEN_API_KEY" = Some "") <->
   DatagenClient_init environ key url t n b = Raise api_key_missing) /\
  (forall e : exn,
     DatagenClient_init environ key url t n b = Raise e ->
     forall (url' : string) (t' n' : Z) (b' : Q),
       DatagenClient_init environ key url' t' n' b' = Raise api_key_missing).
Proof.
  unfold DatagenClient_init, py_or.
  split; [|split; [|split]].
  - intros k -> Hk. destruct k; [done|reflexivity].
  - intros c Hc. destruct key as [[|a k]|]; simpl in Hc.
    + destruct (environ !! "DATAGEN_API_KEY") as [[|a' k']|] eqn:He;
        simpl in Hc; inversion Hc; subst; simpl; auto.
    + inversion Hc; subst; simpl; auto.
    + destruct (environ !! "DATAGEN_API_KEY") as [[|a' k']|] eqn:He;
        simpl in Hc; inversion Hc; subst; simpl; auto.
  - split.
    + intros [[-> | ->] [-> | ->]]; reflexivity.
    + intros H. destruct key as [[|a k]|]; simpl in H;
        destruct (environ !! "DATAGEN_API_KEY") as [[|a' k']|];
        simpl in H; try discriminate; auto.
  - intros e He url' t' n' b'.
    destruct key as [[|a k]|]; simpl in He |- *;
      destruct (environ !! "DATAGEN_API_KEY") as [[|a' k']|];
      simpl in He |- *; try discriminate; reflexivity.
Qed.

Lemma rstrip_app_slashes (s : string) (n : nat) :
  rstrip "/" (s ++ slashes n) = rstrip "/" s.
Proof.
  induction n as [|n IH].
  - change (slashes 0) with "". by rewrite append_nil_r.
  - by rewrite slashes_snoc, <- append_assoc, rstrip_snoc.
Qed.

(** X14. Trailing "/" on the endpoint make no difference: endpoints that
    differ only in how many "/" they end with give the same client, the
    stored endpoint is stored again unchanged, and the requests of a
    constructed client go to the endpoint without its trailing "/"
    followed by "/api/tools/execute". *)
Theorem trailing_slashes_ignored (key : option string) (url : string)
    (t n : Z) (b : Q) :
  (forall m : nat,
     DatagenClient_init environ key (url ++ slashes m) t n b =
     DatagenClient_init environ key url t n b) /\
  (forall c : DatagenClient,
     DatagenClient_init environ key url t n b = Return c ->
     DatagenClient_init environ key (base_url c) t n b = Return c /\
     forall (name : string) (parameters : value),
       req_url (tool_request c name parameters) =
         rstrip "/" url ++ "/api/tools/execute").
Proof.
  split.
  - intros m. unfold DatagenClient_init. by rewrite rstrip_app_slashes.
  - intros c Hc.
    assert (Hbase : base_url c = rstrip "/" url).
    { unfold DatagenClient_init in Hc.
      destruct (py_or _ _) as [k|]; [|discriminate].
      destruct (negb _); [discriminate|]. by inversion Hc. }
    split; [|intros name parameters; simpl; by rewrite Hbase].
    rewrite <- Hc. unfold DatagenClient_init. rewrite Hbase.
    by rewrite (rstrip_fixed _ (rstrip_no_trailing url)).
Qed.

End Credential.

(** ** The further properties at the sample data *)

Lemma http_statuses_retried_witness :
  fst (execute_tool sample_repr cpython overloaded "test_tool" VNone
         (start sample_client)) =
    Raise (Exn DatagenHttpError (VStr "HTTP 404: Not Found")) /\
  length (calls (snd (execute_tool sample_repr cpython overloaded "test_tool" VNone
                        (start sample_client)))) = 4%nat.
Proof.
  destruct (http_statuses_retried sample_repr cpython overloaded sample_client
              "test_tool" VNone) as (r & Hb & Hf & Hc & _).
  - discriminate.
  - simpl. lia.
  - exact cpython_accepts_sample.
  - intros j _. unfold overloaded.
    destruct (Nat.even j); eexists; (split; [reflexivity|]); simpl; lia.
  - change (Return {| status_code := 404; text := "Not Found"; json := undecodable |}
            = Return r) in Hb.
    inversion Hb. subst r. split; [exact Hf|exact Hc].
Defined.

Lemma outer_failure_retried_witness :
  fst (execute_tool sample_repr cpython rejecting "test_tool" VNone
         (start sample_client)) =
    Raise (Exn DatagenHttpError
             (VStr ("Unexpected response: " ++ sample_repr rejected_payload))) /\
  length (calls (snd (execute_tool sample_repr cpython rejecting "test_tool" VNone
                        (start sample_client)))) = 4%nat.
Proof.
  destruct (outer_failure_retried sample_repr cpython rejecting sample_client
              "test_tool" VNone) as (r & p & Hb & Hj & Hf & Hc & _).
  - discriminate.
  - simpl. lia.
  - exact cpython_accepts_sample.
  - intros j _. eexists. eexists. split; [reflexivity|].
    split; [simpl; lia|]. split; reflexivity.
  - inversion Hb. subst r. inversion Hj. subst p. split; [exact Hf|exact Hc].
Defined.

Lemma transport_failures_retried_witness :
  fst (execute_tool sample_repr cpython (flaky sample_result) "test_tool" VNone
         (start sample_client)) = Return sample_result /\
  length (calls (snd (execute_tool sample_repr cpython (flaky sample_result)
                        "test_tool" VNone (start sample_client)))) = 3%nat /\
  length (sleeps (snd (execute_tool sample_repr cpython (flaky sample_result)
                         "test_tool" VNone (start sample_client)))) = 2%nat.
Proof.
  apply (transport_failures_retried sample_repr cpython (flaky sample_result)
           sample_client "test_tool" VNone 2%nat (ok_response sample_result)
           sample_result).
  - discriminate.
  - simpl. lia.
  - simpl. lia.
  - apply (sleeps_accepted_le cpython sample_client 3 2); [lia|].
    exact cpython_accepts_sample.
  - intros j Hj. exists (Exn Timeout (VStr "Read timed out.")).
    destruct j as [|[|j]]; [split; reflexivity|split; reflexivity|lia].
  - reflexivity.
  - reflexivity.
  - reflexivity.
Defined.

Lemma tool_failure_not_retried_witness :
  fst (execute_tool sample_repr cpython no_data "test_tool" VNone (start sample_client)) =
    Raise (Exn DatagenToolError (VStr "Tool reported failure")) /\
  calls (snd (execute_tool sample_repr cpython no_data "test_tool" VNone
                (start sample_client))) =
    [tool_request sample_client "test_tool" VNone].
Proof.
  destruct (tool_failure_not_retried sample_repr cpython no_data sample_client
              "test_tool" VNone
              {| status_code := 200; text := "";
                 json := Return (VDict (<["success" := VBool true]> ∅)) |}
              (<["success" := VBool true]> ∅) ∅)
    as (_ & Hgeneric & Hc & _).
  - discriminate.
  - simpl. lia.
  - reflexivity.
  - simpl. lia.
  - reflexivity.
  - reflexivity.
  - reflexivity.
  - reflexivity.
  - split; [apply Hgeneric; reflexivity|exact Hc].
Defined.

Lemma success_flags_truthy_witness :
  fst (execute_tool sample_repr cpython loose_success "test_tool" VNone
         (start sample_client)) = Return VNone.
Proof.
  destruct (success_flags_truthy sample_repr cpython loose_success sample_client
              "test_tool" VNone
              {| status_code := 200; text := "";
                 json := Return (VDict (<["success" := VInt 1]>
                           (<["data" := VDict (<["success" := VStr "yes"]> ∅)]> ∅))) |}
              (<["success" := VInt 1]>
                 (<["data" := VDict (<["success" := VStr "yes"]> ∅)]> ∅))
              (<["success" := VStr "yes"]> ∅))
    as (_ & Hnone & _).
  - discriminate.
  - simpl. lia.
  - reflexivity.
  - simpl. lia.
  - reflexivity.
  - reflexivity.
  - reflexivity.
  - reflexivity.
  - apply Hnone. reflexivity.
Defined.

Lemma malformed_payload_not_retried_witness :
  fst (execute_tool sample_repr cpython malformed "test_tool" VNone
         (start sample_client)) = Raise no_get /\
  calls (snd (execute_tool sample_repr cpython malformed "test_tool" VNone
                (start sample_client))) =
    [tool_request sample_client "test_tool" VNone].
Proof.
  destruct (malformed_payload_not_retried sample_repr cpython malformed sample_client
              "test_tool" VNone
              {| status_code := 200; text := "[]"; json := Return (VList []) |})
    as (Hlist & _).
  - discriminate.
  - simpl. lia.
  - reflexivity.
  - simpl. lia.
  - destruct (Hlist (VList [])) as (Hf & Hc & _).
    + reflexivity.
    + discriminate.
    + split; [exact Hf|exact Hc].
Defined.

Lemma undecodable_body_witness :
  (fst (execute_tool sample_repr cpython garbled "test_tool" VNone
          (start sample_client)) = Raise decode_error /\
   length (calls (snd (execute_tool sample_repr cpython garbled "test_tool" VNone
                         (start sample_client)))) = 4%nat) /\
  (fst (execute_tool sample_repr cpython (garbled_then_ok sample_result) "test_tool"
          VNone (start sample_client)) = Return sample_result /\
   length (calls (snd (execute_tool sample_repr cpython (garbled_then_ok sample_result)
                         "test_tool" VNone (start sample_client)))) = 3%nat) /\
  (fst (execute_tool sample_repr cpython garbled_old "test_tool" VNone
          (start sample_client)) = Raise old_decode_error /\
   calls (snd (execute_tool sample_repr cpython garbled_old "test_tool" VNone
                 (start sample_client))) =
     [tool_request sample_client "test_tool" VNone]).
Proof.
  split; [|split].
  - destruct (undecodable_body sample_repr cpython garbled sample_client
                "test_tool" VNone) as (_ & Hall & _).
    + discriminate.
    + simpl. lia.
    + destruct Hall as (e & (r & Hb & _ & Hj) & Hf & Hc & _).
      * exact cpython_accepts_sample.
      * intros j _. exists decode_error. split; [|reflexivity].
        eexists. split; [reflexivity|]. split; [simpl; lia|reflexivity].
      * inversion Hb. subst r. inversion Hj. subst e. split; [exact Hf|exact Hc].
  - destruct (undecodable_body sample_repr cpython (garbled_then_ok sample_result)
                sample_client "test_tool" VNone) as (_ & _ & Hthen & _).
    + discriminate.
    + simpl. lia.
    + apply (Hthen 2%nat (ok_response sample_result) sample_result).
      * simpl. lia.
      * apply (sleeps_accepted_le cpython sample_client 3 2); [lia|].
        exact cpython_accepts_sample.
      * intros j Hj. exists decode_error. split; [|reflexivity].
        destruct j as [|[|j]]; [| |lia];
          (eexists; split; [reflexivity|]; split; [simpl; lia|reflexivity]).
      * reflexivity.
      * reflexivity.
      * reflexivity.
  - destruct (undecodable_body sample_repr cpython garbled_old sample_client
                "test_tool" VNone) as (_ & _ & _ & Hold).
    + discriminate.
    + simpl. lia.
    + destruct (Hold old_decode_error) as (Hf & Hc & _).
      * eexists. split; [reflexivity|]. split; [simpl; lia|reflexivity].
      * reflexivity.
      * reflexivity.
      * split; [exact Hf|exact Hc].
Defined.

Lemma refused_sleep_ends_call_witness :
  fst (execute_tool sample_repr cpython always_failing "test_tool" VNone
         (start hasty_client)) =
    Raise (Exn ValueError (VStr "sleep length must be non-negative")) /\
  calls (snd (execute_tool sample_repr cpython always_failing "test_tool" VNone
                (start hasty_client))) =
    [tool_request hasty_client "test_tool" VNone] /\
  sleeps (snd (execute_tool sample_repr cpython always_failing "test_tool" VNone
                 (start hasty_client))) = [].
Proof.
  apply (refused_sleep_ends_call sample_repr cpython always_failing hasty_client
           "test_tool" VNone 0%nat
           (Exn ValueError (VStr "sleep length must be non-negative"))).
  - discriminate.
  - simpl. lia.
  - intros i Hi. lia.
  - intros j _. exists http_500. split; reflexivity.
  - right. split; reflexivity.
Defined.

Lemma requests_identical_witness :
  exists (k : nat) (req : Request),
    (1 <= k <= 4)%nat /\
    calls (snd (execute_tool sample_repr cpython always_failing "test_tool" VNone
                  (start sample_client))) = replicate k req /\
    req_url req = "http://localhost:3001/api/tools/execute" /\
    req_headers req !! "X-API-Key" = Some "test_key".
Proof.
  destruct (requests_identical sample_repr cpython always_failing sample_client
              "test_tool" VNone)
    as (k & req & body & Hk & Hcalls & Hurl & Hkey & _).
  - discriminate.
  - simpl. lia.
  - exists k, req. split; [exact Hk|]. split; [exact Hcalls|].
    split; [exact Hurl|exact Hkey].
Defined.

Lemma sleeps_between_requests_witness :
  length (sleeps (snd (execute_tool sample_repr cpython always_failing "test_tool" VNone
                         (start sample_client)))) =
  (length (calls (snd (execute_tool sample_repr cpython always_failing "test_tool" VNone
                         (start sample_client)))) - 1)%nat.
Proof.
  apply (sleeps_between_requests sample_repr cpython always_failing sample_client
           "test_tool" VNone).
  - discriminate.
  - simpl. lia.
  - exact cpython_accepts_sample.
Defined.

Lemma total_sleep_bound_witness :
  (total_sleep (sleeps (snd (execute_tool sample_repr cpython always_failing "test_tool"
                               VNone (start sample_client)))) <=
   (1 # 100) * (inject_Z 8 - 1))%Q /\
  (total_sleep (sleeps (snd (execute_tool sample_repr cpython always_failing "test_tool"
                               VNone (start sample_client)))) ==
   (1 # 100) * (inject_Z 8 - 1))%Q.
Proof.
  destruct (total_sleep_bound sample_repr cpython always_failing sample_client
              "test_tool" VNone) as [Hle Heq].
  - discriminate.
  - simpl. lia.
  - unfold Qle. simpl. lia.
  - split; [exact Hle|]. apply Heq.
    + exact cpython_accepts_sample.
    + intros j _. exists http_500. split; reflexivity.
Defined.


Lemma repeated_call_same_outcome_witness :
  fst (execute_tool sample_repr cpython (tool_failing "boom") "test_tool" VNone
         (snd (execute_tool sample_repr cpython (tool_failing "boom") "test_tool" VNone
                 (start sample_client)))) =
  fst (execute_tool sample_repr cpython (tool_failing "boom") "test_tool" VNone
         (start sample_client)).
Proof.
  apply (repeated_call_same_outcome sample_repr cpython (tool_failing "boom")
           "test_tool" VNone).
  intros j j' req. reflexivity.
Defined.

Lemma negative_retries_no_request_witness :
  execute_tool sample_repr cpython always_failing "test_tool" VNone
    (start negative_client) =
    (Raise (Exn DatagenError (VStr "Unknown error during tool execution")),
     start negative_client).
Proof.
  apply (negative_retries_no_request sample_repr cpython always_failing ∅
           (Some "test_key") "http://localhost:3001" 30%Z (-1)%Z (1 # 2)%Q
           negative_client "test_tool" VNone).
  - reflexivity.
  - lia.
  - discriminate.
Defined.

Lemma credential_resolution_witness :
  DatagenClient_init sample_environ (Some "test_key") "http://localhost:3001/" 30 0 (1 # 2) =
    Return {| api_key := "test_key"; base_url := "http://localhost:3001";
              timeout := 30; retries := 0; backoff_seconds := 1 # 2 |}.
Proof.
  apply (proj1 (credential_resolution sample_environ (Some "test_key")
                  "http://localhost:3001/" 30%Z 0%Z (1 # 2)%Q) "test_key").
  - reflexivity.
  - discriminate.
Defined.

Lemma trailing_slashes_ignored_witness :
  DatagenClient_init sample_environ None "http://localhost:3001" 30 0 (1 # 2) =
    Return env_client /\
  DatagenClient_init sample_environ None (base_url env_client) 30 0 (1 # 2) =
    Return env_client.
Proof.
  split; [reflexivity|].
  apply (proj2 (trailing_slashes_ignored sample_environ None "http://localhost:3001"
                  30%Z 0%Z (1 # 2)%Q) env_client).
  reflexivity.
Defined.

(** A backoff base too large for [time.sleep]: with the sample run-time
    system the first failed attempt of [patient_client] is followed by
    the overflow error of the sleep, after one request and no sleep. *)
Example too_long_sleep_ends_call :
  execute_tool sample_repr cpython always_failing "test_tool" VNone (start patient_client) =
    (Raise (Exn OverflowError (VStr "timestamp too large to convert to C _PyTime_t")),
     posted (start patient_client) (tool_request patient_client "test_tool" VNone)).
Proof. vm_compute. reflexivity. Qed.
